(** * TecLegacy marketplace: cart, checkout, payment and chatbot views

    A shallow embedding of [cart/views.py] and [chatbot/views.py].  The
    relational store behind the Django ORM is an explicit record of tables;
    a view is a computation in a small monad that threads the store, raises
    the exceptions the source raises, and lets a store write fail. *)

From Stdlib Require Import ZArith String Ascii List Lia Bool.
From stdpp Require Import base option list gmap strings.

Local Open Scope Z_scope.
Local Open Scope string_scope.

(** ** Data model *)

(** Modelled from the spec: the model classes that the views import from
    [products/models.py], [cart/models.py] and [chatbot/models.py].  The
    records carry the fields the views read and write; a price or a total
    is an integer amount, and a quantity is an integer, which the store
    takes when it is one that an integer column of SQLite holds (see
    [sqlite_integer] below; the views validate none). *)

Module Product.
Record t := mk {
  id : Z;
  name : string;
  description : string;
  slug : string;
  price : Z;
  is_available : bool;
  category : Z
}.
End Product.

Module Category.
Record t := mk {
  id : Z;
  name : string;
  slug : string;
  is_active : bool
}.
End Category.

Module Cart.
Record t := mk {
  user : option Z;
  session_id : option string
}.
End Cart.

Module CartItem.
Record t := mk {
  cart : Z;
  product : Z;
  quantity : Z
}.

Definition set_quantity (q : Z) (it : t) : t :=
  mk (cart it) (product it) q.
End CartItem.

Module Order.
Record t := mk {
  user : Z;
  first_name : string;
  last_name : string;
  email : string;
  phone : string;
  address : string;
  city : string;
  country : string;
  postal_code : string;
  total_paid : Z;
  payment_method : string;
  payment_status : string;
  payment_reference : string;
  status : string
}.

Definition set_payment_status (v : string) (o : t) : t :=
  mk (user o) (first_name o) (last_name o) (email o) (phone o)
     (address o) (city o) (country o) (postal_code o) (total_paid o)
     (payment_method o) v (payment_reference o) (status o).

Definition set_payment_reference (v : string) (o : t) : t :=
  mk (user o) (first_name o) (last_name o) (email o) (phone o)
     (address o) (city o) (country o) (postal_code o) (total_paid o)
     (payment_method o) (payment_status o) v (status o).

Definition set_status (v : string) (o : t) : t :=
  mk (user o) (first_name o) (last_name o) (email o) (phone o)
     (address o) (city o) (country o) (postal_code o) (total_paid o)
     (payment_method o) (payment_status o) (payment_reference o) v.

(** Modelled from the spec: the column defaults of a new Order, declared
    in [cart/models.py].  The spec names no default, so the three of them
    stay parameters of [checkout]. *)
Record defaults := mk_defaults {
  payment_status0 : string;
  payment_reference0 : string;
  status0 : string
}.
End Order.

Module OrderItem.
Record t := mk {
  order : Z;
  product : Z;
  price : Z;
  quantity : Z
}.
End OrderItem.

(** What the chatbot answers.  The two fixed answers are their text; a
    product list and an apology are kept as the data the source formats
    into text: the price ceiling of the intro line, the products listed,
    whether the closing hint is appended, and the query echoed with the
    categories suggested. *)
Inductive Reply :=
| Text (s : string)
| ProductList (max_price : option Z) (listed : list Product.t) (hint : bool)
| Apology (query : string) (suggested : list Category.t).

Module ChatbotQuery.
Record t := mk {
  query : string;
  response : Reply
}.
End ChatbotQuery.

(** The tables.  Rows that the views fetch by primary key live in a finite
    map from the [id] column to the other columns, and a fetched row is the
    pair of both; [products] and [categories] are in the store's natural
    order; [order_items] and [chatbot_queries] are only ever appended to.
    [cart_item_sequence] is the entry that SQLite's [sqlite_sequence] table
    keeps for the cart items: the largest key the table has ever given
    (Django declares its keys [AUTOINCREMENT] on SQLite, the engine of
    [settings.py]). *)
Record Store := mkStore {
  products : list Product.t;
  categories : list Category.t;
  carts : gmap Z Cart.t;
  cart_items : gmap Z CartItem.t;
  orders : gmap Z Order.t;
  order_items : list OrderItem.t;
  chatbot_queries : list ChatbotQuery.t;
  cart_item_sequence : Z
}.

Definition set_carts (v : gmap Z Cart.t) (st : Store) : Store :=
  mkStore (products st) (categories st) v (cart_items st) (orders st)
          (order_items st) (chatbot_queries st) (cart_item_sequence st).

Definition set_cart_items (v : gmap Z CartItem.t) (st : Store) : Store :=
  mkStore (products st) (categories st) (carts st) v (orders st)
          (order_items st) (chatbot_queries st) (cart_item_sequence st).

Definition set_orders (v : gmap Z Order.t) (st : Store) : Store :=
  mkStore (products st) (categories st) (carts st) (cart_items st) v
          (order_items st) (chatbot_queries st) (cart_item_sequence st).

Definition set_order_items (v : list OrderItem.t) (st : Store) : Store :=
  mkStore (products st) (categories st) (carts st) (cart_items st) (orders st)
          v (chatbot_queries st) (cart_item_sequence st).

Definition set_chatbot_queries (v : list ChatbotQuery.t) (st : Store) : Store :=
  mkStore (products st) (categories st) (carts st) (cart_items st) (orders st)
          (order_items st) v (cart_item_sequence st).

Definition set_products (v : list Product.t) (st : Store) : Store :=
  mkStore v (categories st) (carts st) (cart_items st) (orders st)
          (order_items st) (chatbot_queries st) (cart_item_sequence st).

Definition set_cart_item_sequence (v : Z) (st : Store) : Store :=
  mkStore (products st) (categories st) (carts st) (cart_items st) (orders st)
          (order_items st) (chatbot_queries st) v.

(** The rows of a keyed table, and the primary key the store gives to the
    next row.  The views never delete a cart or an order, so for these
    tables the largest key given so far is the largest key in use and the
    next key is one more ([next_pk]).  Cart items are deleted, and a key
    is never given twice: the next key is one more than the larger of the
    largest key in use and the sequence entry ([autoincrement]). *)
Definition rows {A} (m : gmap Z A) : list (Z * A) := map_to_list m.

Definition largest_pk {A} (m : gmap Z A) : Z :=
  foldr Z.max 0 ((map_to_list m).*1).

Definition next_pk {A} (m : gmap Z A) : Z :=
  foldr Z.max 0 ((map_to_list m).*1) + 1.

Definition autoincrement {A} (sequence : Z) (m : gmap Z A) : Z :=
  Z.max sequence (largest_pk m) + 1.

(** ** The view monad

    A view runs against the store and the queue of flash messages.  Django
    is in autocommit mode here ([settings.py] sets no [ATOMIC_REQUESTS] and
    the views open no transaction), so every write is committed when it
    returns and stays committed when a later statement raises.  [faults]
    schedules a failing write: [Some n] makes the write after [n]
    successful ones raise [OperationalError]; [None] lets all succeed. *)

Inductive exn :=
| Http404
| MultipleObjectsReturned
| ValueError
| AttributeError
| JSONDecodeError
| OverflowError
| OperationalError.

Inductive Level := INFO | SUCCESS | WARNING | ERROR.

Record World := mkWorld {
  db : Store;
  flash : list (Level * string);
  faults : option nat
}.

Inductive result (A : Type) :=
| Done (a : A)
| Raised (e : exn).
Arguments Done {A} a.
Arguments Raised {A} e.

Definition M (A : Type) : Type := World -> result A * World.

#[global] Instance M_ret : MRet M := fun A a w => (Done a, w).

#[global] Instance M_bind : MBind M := fun A B k m w =>
  match m w with
  | (Done a, w') => k a w'
  | (Raised e, w') => (Raised e, w')
  end.

Definition raise {A} (e : exn) : M A := fun w => (Raised e, w).

(** [try: m except Exception as e: handler(e)] *)
Definition try_except {A} (m : M A) (handler : exn -> M A) : M A :=
  fun w => match m w with
           | (Raised e, w') => handler e w'
           | r => r
           end.

Definition read : M Store := fun w => (Done (db w), w).

Definition write (f : Store -> Store) : M unit :=
  fun w => match faults w with
           | Some O => (Raised OperationalError, mkWorld (db w) (flash w) None)
           | Some (S n) => (Done tt, mkWorld (f (db w)) (flash w) (Some n))
           | None => (Done tt, mkWorld (f (db w)) (flash w) None)
           end.

Definition message (l : Level) (s : string) : M unit :=
  fun w => (Done tt, mkWorld (db w) (flash w ++ [(l, s)]) (faults w)).

Fixpoint for_each {A} (l : list A) (body : A -> M unit) : M unit :=
  match l with
  | [] => mret tt
  | x :: l' => body x;; for_each l' body
  end.

(** [Model.objects.get(...)] over the rows that match. *)
Inductive got (A : Type) :=
| DoesNotExist
| Got (a : A)
| Several.
Arguments DoesNotExist {A}.
Arguments Got {A} a.
Arguments Several {A}.

Definition objects_get {A} (matching : list A) : got A :=
  match matching with
  | [] => DoesNotExist
  | [a] => Got a
  | _ => Several
  end.

Definition or_raise {A} (e : exn) (o : option A) : M A :=
  match o with
  | Some a => mret a
  | None => raise e
  end.

Definition get_object_or_404 {A} (matching : list A) : M A :=
  match objects_get matching with
  | DoesNotExist => raise Http404
  | Got a => mret a
  | Several => raise MultipleObjectsReturned
  end.

(** ** Requests and responses *)

(** Values of a parsed JSON request body, and of a JSON response. *)
Inductive json :=
| JNull
| JBool (b : bool)
| JNum (z : Z)
| JStr (s : string).

#[global] Instance json_eq_dec : EqDecision json.
Proof. solve_decision. Defined.

Inductive value :=
| VBool (b : bool)
| VInt (z : Z)
| VStr (s : string)
| VMoney (amount : Z)    (* [str(amount)] of a Decimal amount *)
| VReply (r : Reply)     (* the text of a chatbot reply *)
| VError (e : exn).      (* [str(e)] of a caught exception *)

(** [d.get(key)] on a [QueryDict] or a parsed JSON object: the last value
    bound to the key. *)
Fixpoint dict_get {V} (key : string) (d : list (string * V)) : option V :=
  match d with
  | [] => None
  | (k, v) :: d' =>
      match dict_get key d' with
      | Some v' => Some v'
      | None => if String.eqb k key then Some v else None
      end
  end.

Record Request := mkRequest {
  method : string;
  user : option Z;                      (* [request.user] when authenticated *)
  session_key : option string;
  created_session_key : string;         (* what [request.session.create()] issues *)
  x_requested_with : option string;
  GET : list (string * string);
  POST : list (string * string);
  body : option (list (string * json)); (* [json.loads(request.body)], [None] when it raises *)
  uuid4_hex : string                    (* what [uuid.uuid4().hex] yields *)
}.

Inductive HttpResponse :=
| Render (template : string)
| Redirect (to : string) (arg : option Z)
| JsonResponse (data : list (string * value)).

(** ** Python's [int] on text, [str.lower] and [str.upper]

    Text is the string of its UTF-8 bytes.  White space and digits are the
    ASCII ones. *)

Definition is_space (c : ascii) : bool :=
  let n := nat_of_ascii c in
  ((9 <=? n) && (n <=? 13) || (28 <=? n) && (n <=? 32))%nat.

Definition digit_value (c : ascii) : option Z :=
  let n := nat_of_ascii c in
  if ((48 <=? n) && (n <=? 57))%nat then Some (Z.of_nat n - 48) else None.

Fixpoint lstrip (l : list ascii) : list ascii :=
  match l with
  | c :: l' => if is_space c then lstrip l' else l
  | [] => []
  end.

Definition strip (l : list ascii) : list ascii :=
  rev (lstrip (rev (lstrip l))).

(** Decimal digits, single underscores allowed between two digits. *)
Fixpoint digits_value (acc : Z) (after_digit : bool) (l : list ascii)
  : option Z :=
  match l with
  | [] => if after_digit then Some acc else None
  | c :: l' =>
      match digit_value c with
      | Some d => digits_value (10 * acc + d) true l'
      | None =>
          if (Ascii.eqb c "_" && after_digit)%bool
          then match l' with
               | [] => None
               | _ => digits_value acc false l'
               end
          else None
      end
  end.

(** [sys.get_int_max_str_digits()] as CPython ships it: [int] raises
    [ValueError] on text with more digits than that, the sign, the white
    space around the number and the underscores not counted. *)
Definition int_max_str_digits : nat := 4300.

Definition count_digits (l : list ascii) : nat :=
  length (List.filter (fun c => if digit_value c is Some _ then true else false) l).

Definition int_of_digits (l : list ascii) : option Z :=
  if (int_max_str_digits <? count_digits l)%nat then None
  else digits_value 0 false l.

Definition py_int (s : string) : option Z :=
  match strip (list_ascii_of_string s) with
  | "-"%char :: l => Z.opp <$> int_of_digits l
  | "+"%char :: l => int_of_digits l
  | l => int_of_digits l
  end.

Definition lower_char (c : ascii) : ascii :=
  let n := nat_of_ascii c in
  if ((65 <=? n) && (n <=? 90))%nat then ascii_of_nat (n + 32) else c.

Definition upper_char (c : ascii) : ascii :=
  let n := nat_of_ascii c in
  if ((97 <=? n) && (n <=? 122))%nat then ascii_of_nat (n - 32) else c.

(** The case folding of SQLite's [LIKE]: ASCII letters only. *)
Fixpoint ascii_lower (s : string) : string :=
  match s with
  | EmptyString => EmptyString
  | String c s' => String (lower_char c) (ascii_lower s')
  end.

(** The second byte of a capital from U+00C0 to U+00DE (the sign U+00D7
    apart) after the byte 195, and that of its small letter. *)
Definition lower_latin1 (c : ascii) : ascii :=
  let n := nat_of_ascii c in
  if ((128 <=? n) && (n <=? 158) && negb (Nat.eqb n 151))%nat
  then ascii_of_nat (n + 32) else c.

(** [str.lower] on text whose characters are all below U+0100 (ASCII and
    Latin-1, which holds the accented letters of Spanish): the capitals A
    to Z and the capitals from U+00C0 to U+00DE.  The views that lower
    their input take the function as [str_lower]; this one runs them on
    such text. *)
Fixpoint lower (s : string) : string :=
  match s with
  | EmptyString => EmptyString
  | String c s' =>
      if Nat.eqb (nat_of_ascii c) 195 then
        match s' with
        | EmptyString => String c EmptyString
        | String d s'' => String c (String (lower_latin1 d) (lower s''))
        end
      else String (lower_char c) (lower s')
  end.

Fixpoint upper (s : string) : string :=
  match s with
  | EmptyString => EmptyString
  | String c s' => String (upper_char c) (upper s')
  end.

(** ** Model methods *)

(** [item.product]: the row of the catalogue that a line refers to, and
    its price when it is read ([0] stands for a dangling reference, which
    the foreign key rules out). *)
Definition product_of (st : Store) (pk : Z) : option Product.t :=
  List.find (fun p => Z.eqb (Product.id p) pk) (products st).

Definition product_price (st : Store) (pk : Z) : Z :=
  from_option Product.price 0 (product_of st pk).

(** [cart.items.all()] *)
Definition items (st : Store) (cart : Z) : list (Z * CartItem.t) :=
  filter (fun it => CartItem.cart it.2 = cart) (rows (cart_items st)).

(** Modelled from the spec: [CartItem.get_cost], a method of
    [cart/models.py]; the quantity times the product's price at read
    time. *)
Definition get_cost (st : Store) (it : CartItem.t) : Z :=
  CartItem.quantity it * product_price st (CartItem.product it).

(** Modelled from the spec: [Cart.get_total_price], a method of
    [cart/models.py]; the sum over the cart's items of quantity times the
    product's price, recomputed on every read. *)
Definition get_total_price (st : Store) (cart : Z) : Z :=
  foldr Z.add 0 ((fun it => get_cost st it.2) <$> items st cart).

(** Modelled from the spec: [Cart.get_total_items], a method of
    [cart/models.py]; the sum of the quantities over the cart's items. *)
Definition get_total_items (st : Store) (cart : Z) : Z :=
  foldr Z.add 0 ((fun it => CartItem.quantity it.2) <$> items st cart).

(** ** cart/views.py *)

Definition get_or_create (matches : Cart.t -> Prop)
    `{!forall c, Decision (matches c)} (new : Cart.t) : M (Z * Cart.t) :=
  st ← read;
  match objects_get (filter (fun c => matches c.2) (rows (carts st))) with
  | Got cart => mret cart
  | DoesNotExist =>
      let pk := next_pk (carts st) in
      write (fun st => set_carts (<[pk := new]> (carts st)) st);;
      mret (pk, new)
  | Several => raise MultipleObjectsReturned
  end.

Definition _get_or_create_cart (request : Request) : M (Z * Cart.t) :=
  match user request with
  | Some u =>
      get_or_create (fun c => Cart.user c = Some u) (Cart.mk (Some u) None)
  | None =>
      let session_id :=
        match session_key request with
        | Some k => if String.eqb k "" then created_session_key request else k
        | None => created_session_key request
        end in
      get_or_create (fun c => Cart.session_id c = Some session_id)
                    (Cart.mk None (Some session_id))
  end.

Definition is_ajax (request : Request) : bool :=
  bool_decide (x_requested_with request = Some "XMLHttpRequest").

(** [int(d.get('quantity', 1))] *)
Definition int_quantity (d : list (string * string)) : M Z :=
  match dict_get "quantity" d with
  | None => mret 1
  | Some s => or_raise ValueError (py_int s)
  end.

(** The integers that an [INTEGER] column of SQLite holds: 64 bits, signed.
    Binding any other integer to a statement raises [OverflowError] before
    the statement runs. *)
Definition sqlite_integer (z : Z) : bool :=
  andb (Z.leb (- 2 ^ 63) z) (Z.ltb z (2 ^ 63)).

(** [cart_item.save()] of a fetched row, [CartItem.objects.create(...)] and
    [cart_item.delete()]. *)
Definition save_cart_item (pk : Z) (it : CartItem.t) : M unit :=
  if sqlite_integer (CartItem.quantity it) then
    write (fun st => set_cart_items (<[pk := it]> (cart_items st)) st)
  else raise OverflowError.

Definition create_cart_item (cart product quantity : Z) : M unit :=
  if sqlite_integer quantity then
    write (fun st =>
      let pk := autoincrement (cart_item_sequence st) (cart_items st) in
      set_cart_item_sequence pk
        (set_cart_items (<[pk := CartItem.mk cart product quantity]> (cart_items st))
                        st))
  else raise OverflowError.

Definition delete_cart_item (pk : Z) : M unit :=
  write (fun st => set_cart_items (delete pk (cart_items st)) st).

(** [CartItem.objects.get(cart=cart, product=product)] *)
Definition get_cart_item (st : Store) (cart product : Z) : got (Z * CartItem.t) :=
  objects_get
    (filter (fun it => CartItem.cart it.2 = cart /\ CartItem.product it.2 = product)
            (rows (cart_items st))).

Definition add_to_cart (request : Request) (product_id : Z) : M HttpResponse :=
  st ← read;
  product ← get_object_or_404
    (filter (fun p => Product.id p = product_id /\ Product.is_available p = true)
            (products st));
  cart ← _get_or_create_cart request;
  if is_ajax request then
    quantity ← int_quantity (GET request);
    st ← read;
    match get_cart_item st cart.1 (Product.id product) with
    | Got cart_item =>
        save_cart_item cart_item.1
          (CartItem.set_quantity (CartItem.quantity cart_item.2 + quantity) cart_item.2)
    | DoesNotExist => create_cart_item cart.1 (Product.id product) quantity
    | Several => raise MultipleObjectsReturned
    end;;
    st ← read;
    mret (JsonResponse [
      ("success", VBool true);
      ("message", VStr (Product.name product +:+ " añadido al carrito"));
      ("cart_items_count", VInt (get_total_items st cart.1));
      ("cart_total", VMoney (get_total_price st cart.1))])
  else
    quantity ← int_quantity (POST request);
    st ← read;
    match get_cart_item st cart.1 (Product.id product) with
    | Got cart_item =>
        save_cart_item cart_item.1
          (CartItem.set_quantity (CartItem.quantity cart_item.2 + quantity) cart_item.2);;
        message SUCCESS ("La cantidad de " +:+ Product.name product
                         +:+ " ha sido actualizada en tu carrito")
    | DoesNotExist =>
        create_cart_item cart.1 (Product.id product) quantity;;
        message SUCCESS (Product.name product +:+ " ha sido añadido a tu carrito")
    | Several => raise MultipleObjectsReturned
    end;;
    mret (Redirect "cart:cart_detail" None).

(** [get_object_or_404(CartItem, id=item_id)] with [item_id] out of the
    JSON body: a number is the key, text goes through [int], [true] and
    [false] are 1 and 0, and a missing or null value matches no row. *)
Definition cart_item_by_id (item_id : option json) : M (Z * CartItem.t) :=
  pk ← match item_id return M (option Z) with
       | Some (JNum z) => mret (Some z)
       | Some (JStr s) => z ← or_raise ValueError (py_int s); mret (Some z)
       | Some (JBool b) => mret (Some (if b then 1 else 0))
       | Some JNull | None => mret None
       end;
  st ← read;
  get_object_or_404
    (option_list (pk ≫= fun pk => pair pk <$> cart_items st !! pk)).

Definition removed_response (st : Store) (cart : Z) : HttpResponse :=
  JsonResponse [
    ("success", VBool true);
    ("removed", VBool true);
    ("cart_total", VMoney (get_total_price st cart));
    ("cart_items_count", VInt (get_total_items st cart))].

Definition updated_response (st : Store) (cart_item : CartItem.t) : HttpResponse :=
  JsonResponse [
    ("success", VBool true);
    ("item_total", VMoney (get_cost st cart_item));
    ("quantity", VInt (CartItem.quantity cart_item));
    ("cart_total", VMoney (get_total_price st (CartItem.cart cart_item)));
    ("cart_items_count", VInt (get_total_items st (CartItem.cart cart_item)))].

Definition update_cart (request : Request) : M HttpResponse :=
  if (String.eqb (method request) "POST" && is_ajax request)%bool then
    data ← or_raise JSONDecodeError (body request);
    let item_id := dict_get "item_id" data in
    let action := dict_get "action" data in
    cart_item ← cart_item_by_id item_id;
    let save_and_respond (row : CartItem.t) : M HttpResponse :=
      save_cart_item cart_item.1 row;;
      st ← read;
      mret (updated_response st row) in
    if bool_decide (action = Some (JStr "increase")) then
      save_and_respond
        (CartItem.set_quantity (CartItem.quantity cart_item.2 + 1) cart_item.2)
    else if bool_decide (action = Some (JStr "decrease")) then
      if bool_decide (CartItem.quantity cart_item.2 > 1) then
        save_and_respond
          (CartItem.set_quantity (CartItem.quantity cart_item.2 - 1) cart_item.2)
      else
        delete_cart_item cart_item.1;;
        st ← read;
        mret (removed_response st (CartItem.cart cart_item.2))
    else if bool_decide (action = Some (JStr "remove")) then
      delete_cart_item cart_item.1;;
      st ← read;
      mret (removed_response st (CartItem.cart cart_item.2))
    else
      save_and_respond cart_item.2
  else
    mret (JsonResponse [("success", VBool false)]).

(** [@login_required]: an anonymous request is sent to [LOGIN_URL]. *)
Definition login_required (view : Z -> M HttpResponse) (request : Request)
  : M HttpResponse :=
  match user request with
  | Some u => view u
  | None => mret (Redirect "users:login" None)
  end.

Definition required_fields : list string :=
  ["first_name"; "last_name"; "email"; "phone"; "address"; "city"; "country";
   "postal_code"; "payment_method"].

(** [not request.POST.get(field)]: the field is absent or empty. *)
Definition missing (request : Request) (field : string) : bool :=
  match dict_get field (POST request) with
  | Some v => String.eqb v ""
  | None => true
  end.

Definition post (request : Request) (field : string) : string :=
  default "" (dict_get field (POST request)).

Definition new_order (d : Order.defaults) (u : Z) (request : Request)
    (total_paid : Z) : Order.t :=
  Order.mk u (post request "first_name") (post request "last_name")
    (post request "email") (post request "phone") (post request "address")
    (post request "city") (post request "country") (post request "postal_code")
    total_paid (post request "payment_method")
    (Order.payment_status0 d) (Order.payment_reference0 d) (Order.status0 d).

(** The [OrderItem] of a cart line: the product's price is copied. *)
Definition order_item (st : Store) (order : Z) (item : CartItem.t) : OrderItem.t :=
  OrderItem.mk order (CartItem.product item)
    (product_price st (CartItem.product item)) (CartItem.quantity item).

Definition create_order_item (order : Z) (item : Z * CartItem.t) : M unit :=
  write (fun st => set_order_items (order_items st ++ [order_item st order item.2]) st).

(** [cart.items.all().delete()] *)
Definition delete_items (cart : Z) : M unit :=
  write (fun st =>
    set_cart_items (filter (fun it => CartItem.cart it.2 <> cart) (cart_items st)) st).

Definition checkout (d : Order.defaults) (request : Request) : M HttpResponse :=
  login_required (fun u =>
  cart ← _get_or_create_cart request;
  st ← read;
  if bool_decide (length (items st cart.1) = 0%nat) then
    message INFO "Tu carrito está vacío. Añade algunos productos antes de hacer checkout.";;
    mret (Redirect "cart:cart_detail" None)
  else if String.eqb (method request) "POST" then
    match List.find (missing request) required_fields with
    | Some field =>
        message ERROR ("El campo " +:+ field +:+ " es obligatorio");;
        mret (Redirect "cart:checkout" None)
    | None =>
        let order := next_pk (orders st) in
        let total_paid := get_total_price st cart.1 in
        write (fun st => set_orders (<[order := new_order d u request total_paid]>
                                       (orders st)) st);;
        st ← read;
        for_each (items st cart.1) (create_order_item order);;
        delete_items cart.1;;
        message SUCCESS "¡Tu pedido ha sido creado correctamente!";;
        mret (Redirect "cart:payment_process" (Some order))
    end
  else
    mret (Render "cart/checkout.html")) request.

(** [get_object_or_404(Order, id=order_id, user=request.user)] *)
Definition order_of (order_id u : Z) : M Order.t :=
  st ← read;
  get_object_or_404
    (filter (fun o => Order.user o = u) (option_list (orders st !! order_id))).

(** [order.save()] of the row fetched under [order_id]. *)
Definition save_order (order_id : Z) (order : Order.t) : M unit :=
  write (fun st => set_orders (<[order_id := order]> (orders st)) st).

Definition payment_process (request : Request) (order_id : Z) : M HttpResponse :=
  login_required (fun u =>
  order ← order_of order_id u;
  if String.eqb (Order.payment_status order) "completado" then
    mret (Redirect "cart:payment_success" (Some order_id))
  else
    mret (Render "cart/payment_process.html")) request.

Definition payment_execute (request : Request) (order_id : Z) : M HttpResponse :=
  login_required (fun u =>
  if String.eqb (method request) "POST" then
    order ← order_of order_id u;
    let payment_id := default "" (dict_get "payment_id" (POST request)) in
    let payment_id :=
      if String.eqb payment_id ""
      then "PAY-" +:+ upper (substring 0 16 (uuid4_hex request))
      else payment_id in
    save_order order_id
      (Order.set_status "procesando"
        (Order.set_payment_reference payment_id
          (Order.set_payment_status "completado" order)));;
    message SUCCESS "¡Tu pago se ha procesado correctamente!";;
    mret (Redirect "cart:payment_success" (Some order_id))
  else
    mret (Redirect "cart:payment_process" (Some order_id))) request.

Definition payment_cancel (request : Request) (order_id : Z) : M HttpResponse :=
  login_required (fun u =>
  order ← order_of order_id u;
  save_order order_id (Order.set_payment_status "fallido" order);;
  message WARNING "El pago ha sido cancelado.";;
  mret (Redirect "cart:checkout" None)) request.

(** Running a view on a store with an empty message queue. *)
Definition run {A} (m : M A) (st : Store) (faults : option nat)
  : result A * World :=
  m (mkWorld st [] faults).

(** ** chatbot/views.py

    Text is a string of UTF-8 bytes.  [needle in hay] on Python text is
    then substring search on bytes, and [len] counts the bytes that start
    a code point.  [str.split] and the classes [\d] and [\s] are taken
    on their ASCII part; [str.lower] is a parameter of the view. *)

(** [needle in hay] *)
Fixpoint contains (needle hay : string) : bool :=
  String.prefix needle hay ||
  match hay with
  | EmptyString => false
  | String _ hay' => contains needle hay'
  end.

(** [len(word)] *)
Fixpoint py_len (s : string) : nat :=
  match s with
  | EmptyString => 0
  | String c s' =>
      let n := nat_of_ascii c in
      ((if (128 <=? n) && (n <? 192) then 0 else 1) + py_len s')%nat
  end.

(** [query.split()]: the maximal runs of characters that are not white
    space; [word] holds the characters of the current run, last first. *)
Fixpoint split_from (word : list ascii) (s : string) : list string :=
  let flush := match word with
               | [] => []
               | _ => [string_of_list_ascii (rev word)]
               end in
  match s with
  | EmptyString => flush
  | String c s' =>
      if is_space c then flush ++ split_from [] s' else split_from (c :: word) s'
  end.

Definition split (s : string) : list string := split_from [] s.

(** [\d+] at the start of [s]: the longest run of digits. *)
Fixpoint digits_prefix (s : string) : string :=
  match s with
  | String c s' => if digit_value c is Some _ then String c (digits_prefix s') else ""
  | EmptyString => ""
  end.

(** One alternative [lit(\d+)] of the price pattern, tried at the start of
    [s]: the captured group. *)
Definition match_alternative (lit s : string) : option string :=
  if String.prefix lit s then
    let group := digits_prefix (substring (String.length lit) (String.length s) s) in
    if String.eqb group "" then None else Some group
  else None.

(** The alternatives in order, at the start of [s]: the groups of the
    first one that matches, every other group being [None]. *)
Fixpoint match_here (alternatives : list string) (s : string)
  : option (list (option string)) :=
  match alternatives with
  | [] => None
  | lit :: rest =>
      match match_alternative lit s with
      | Some group => Some (Some group :: ((fun _ => None) <$> rest))
      | None => cons None <$> match_here rest s
      end
  end.

(** [re.search]: the match at the leftmost position that has one. *)
Fixpoint re_search (alternatives : list string) (s : string)
  : option (list (option string)) :=
  match match_here alternatives s with
  | Some groups => Some groups
  | None =>
      match s with
      | EmptyString => None
      | String _ s' => re_search alternatives s'
      end
  end.

(** [r'menos de (\d+)|bajo (\d+)|maximo (\d+)|hasta (\d+)'] *)
Definition price_pattern : list string :=
  ["menos de "; "bajo "; "maximo "; "hasta "].

(** The first group that is not [None]. *)
Definition first_group (groups : list (option string)) : option string :=
  List.find (fun g => bool_decide (is_Some g)) groups ≫= id.

Definition extract_max_price (query : string) : M (option Z) :=
  match re_search price_pattern query with
  | Some groups =>
      match first_group groups with
      | Some group => n ← or_raise ValueError (py_int group); mret (Some (n * 1000))
      | None => mret None
      end
  | None => mret None
  end.

Definition category_keywords : list (string * option string) :=
  [("portatil", Some "Portátiles Gaming");
   ("laptop", Some "Portátiles Gaming");
   ("notebook", Some "Portátiles Gaming");
   ("gaming", None);
   ("juego", None);
   ("teclado", Some "Periféricos");
   ("mouse", Some "Periféricos");
   ("raton", Some "Periféricos");
   ("auricular", Some "Periféricos");
   ("cascos", Some "Periféricos");
   ("tarjeta", Some "Componentes");
   ("grafica", Some "Componentes");
   ("procesador", Some "Componentes");
   ("cpu", Some "Componentes");
   ("placa", Some "Componentes");
   ("monitor", Some "Monitores");
   ("pantalla", Some "Monitores");
   ("silla", Some "Sillas Gaming")].

Definition greetings : list string :=
  ["hola"; "hey"; "saludos"; "buenos días"; "buenas tardes"; "buenas noches"].

Definition help_keywords : list string :=
  ["ayuda"; "ayudame"; "como funciona"; "que haces"].

Definition greeting_response : string :=
  "¡Hola! Soy el asistente de TecLegacy. Puedo ayudarte a encontrar productos gaming y tecnología. ¿Qué estás buscando hoy?".

Definition help_response : string :=
  "Puedo ayudarte a encontrar productos en nuestra tienda. Prueba preguntándome por productos específicos como 'muéstrame teclados gaming' o 'busco un monitor de 27 pulgadas'. También puedes indicarme un rango de precio como 'monitores por menos de 500'.".

(** [field__icontains=keyword] on SQLite: [LIKE], which folds the case of
    ASCII letters only. *)
Definition icontains (keyword field : string) : bool :=
  contains (ascii_lower keyword) (ascii_lower field).

(** The body of the loop over [category_keywords], on the narrowed query
    set and [category_filter_applied]. *)
Definition apply_keyword (st : Store) (query : string)
    (keyword : string) (category_name : option string)
    (state : list Product.t * bool) : M (list Product.t * bool) :=
  if contains keyword query then
    match category_name with
    | Some category_name =>
        match objects_get (filter (fun c => Category.name c = category_name)
                                  (categories st)) with
        | Got category =>
            mret (filter (fun p => Product.category p = Category.id category)
                         state.1, true)
        | DoesNotExist => mret state
        | Several => raise MultipleObjectsReturned
        end
    | None =>
        mret (filter (fun p => icontains keyword (Product.name p) = true)
                     state.1, true)
    end
  else mret state.

Fixpoint filter_by_keywords (st : Store) (query : string)
    (keywords : list (string * option string))
    (state : list Product.t * bool) : M (list Product.t * bool) :=
  match keywords with
  | [] => mret state
  | (keyword, category_name) :: rest =>
      state ← apply_keyword st query keyword category_name state;
      filter_by_keywords st query rest state
  end.

(** The fallback search: every word of three characters or more has to
    occur in the name or in the description. *)
Definition filter_by_words (query : string) (products_query : list Product.t)
  : list Product.t :=
  foldl (fun products_query keyword =>
           filter (fun p => icontains keyword (Product.name p)
                            || icontains keyword (Product.description p) = true)
                  products_query)
        products_query
        (List.filter (fun word => (3 <=? py_len word)%nat) (split query)).

(** [if max_price:] — [None] and [0] are both false. *)
Definition truthy (max_price : option Z) : option Z :=
  match max_price with
  | Some 0 => None
  | other => other
  end.

Definition save_chat_query (query : string) (response : Reply) : M unit :=
  write (fun st =>
    set_chatbot_queries (chatbot_queries st ++ [ChatbotQuery.mk query response]) st).

Definition respond (query : string) (response : Reply) : M HttpResponse :=
  save_chat_query query response;;
  mret (JsonResponse [("success", VBool true); ("response", VReply response)]).

(** The rest of the [try] block once the lower-cased query is at hand. *)
Definition answer (query : string) : M HttpResponse :=
  max_price ← extract_max_price query;
  st ← read;
  let products_query := filter (fun p => Product.is_available p = true) (products st) in
  if existsb (fun greeting => contains greeting query) greetings then
    respond query (Text greeting_response)
  else if existsb (fun keyword => contains keyword query) help_keywords then
    respond query (Text help_response)
  else
    '(products_query, category_filter_applied) ←
      filter_by_keywords st query category_keywords (products_query, false);
    let products_query :=
      if category_filter_applied : bool then products_query
      else filter_by_words query products_query in
    let products_query :=
      match truthy max_price with
      | Some max_price => filter (fun p => Product.price p <= max_price) products_query
      | None => products_query
      end in
    let products := take 5 products_query in
    match products with
    | _ :: _ =>
        respond query
          (ProductList (truthy max_price) products
                       (bool_decide (length products = 5%nat)))
    | [] =>
        respond query
          (Apology query (filter (fun c => Category.is_active c = true) (categories st)))
    end.

Section Lowering.

(** [str.lower] of the interpreter.  The view is read for every function
    from text to text in its place; [lower] above is the one that runs it
    on text below U+0100. *)
Variable str_lower : string -> string.

(** [data.get('query', '').lower()]: text is lower-cased, no key is the
    empty text, any other value has no [lower]. *)
Definition query_of (data : list (string * json)) : M string :=
  match dict_get "query" data with
  | None => mret (str_lower "")
  | Some (JStr s) => mret (str_lower s)
  | Some _ => raise AttributeError
  end.

Definition chatbot_query (request : Request) : M HttpResponse :=
  if String.eqb (method request) "POST" then
    try_except
      (data ← or_raise JSONDecodeError (body request);
       query ← query_of data;
       answer query)
      (fun e => mret (JsonResponse [("success", VBool false); ("error", VError e)]))
  else
    mret (JsonResponse [("success", VBool false); ("error", VStr "Método no permitido")]).

End Lowering.
(** * Predicates, concrete stores and requests *)

Local Open Scope list_scope.

(** A paid order, and a second POST to [payment_execute] for it. *)
Definition paid_order : Order.t :=
  Order.mk 7 "Ana" "Ruiz" "ana@example.com" "3001234567" "Calle 1" "Cali"
    "Colombia" "760001" 180000 "paypal" "completado" "PAY-0123456789ABCDEF"
    "procesando".

Definition paid_store : Store :=
  mkStore [] [] ∅ ∅ {[ 1 := paid_order ]} [] [] 0.

(** A shop with three products, the cart of user 7 holding the first two,
    and the order above with its items. *)
Definition silla : Product.t :=
  Product.mk 3 "Silla Gaming" "Silla ergonomica" "silla-gaming" 900000 true 2.

Definition mouse : Product.t :=
  Product.mk 1 "Mouse Gaming" "Mouse con luces" "mouse-gaming" 50000 true 1.

Definition teclado : Product.t :=
  Product.mk 2 "Teclado" "Teclado mecanico" "teclado" 80000 true 1.

Definition shop : Store :=
  mkStore [mouse; teclado; silla]
          [Category.mk 1 "Periféricos" "perifericos" true]
          {[ 1 := Cart.mk (Some 7) None ]}
          {[ 1 := CartItem.mk 1 1 2; 2 := CartItem.mk 1 2 1 ]}
          {[ 1 := paid_order ]}
          [OrderItem.mk 1 1 50000 2; OrderItem.mk 1 2 80000 1]
          []
          2.

Definition ajax_post (data : list (string * json)) : Request :=
  mkRequest "POST" (Some 7) None "" (Some "XMLHttpRequest") [] [] (Some data) "".

Definition cancel_request : Request :=
  mkRequest "GET" (Some 7) None "" None [] [] None "".

Definition second_post : Request :=
  mkRequest "POST" (Some 7) None "" None [] [] None
            "fedcba9876543210fedcba9876543210".

(** An AJAX POST to [update_cart] whose JSON body names the row [item_id]
    and carries [action] under the key of that name. *)
Definition update_request (request : Request) (item_id : Z) (action : option json)
  : Prop :=
  method request = "POST" /\ is_ajax request = true /\
  exists data, body request = Some data /\
               dict_get "item_id" data = Some (JNum item_id) /\
               dict_get "action" data = action.

(** Every persisted cart line has a quantity of at least one. *)
Definition quantities_positive (st : Store) : Prop :=
  map_Forall (fun _ it => 1 <= CartItem.quantity it) (cart_items st).

(** The one cart of user [u] is the row [cart]. *)
Definition cart_of (st : Store) (u cart : Z) : Prop :=
  exists row, filter (fun c => Cart.user c.2 = Some u) (rows (carts st)) = [(cart, row)].

(** The one available product with the key [product_id]. *)
Definition available (st : Store) (product_id : Z) (product : Product.t) : Prop :=
  filter (fun p => Product.id p = product_id /\ Product.is_available p = true)
         (products st) = [product].

(** [int(... .get('quantity', 1))] of a request: out of [GET] when the
    request is an AJAX one, out of [POST] otherwise. *)
Definition requested_quantity (request : Request) : option Z :=
  match dict_get "quantity" (if is_ajax request then GET request else POST request) with
  | None => Some 1
  | Some s => py_int s
  end.

(** The success answers of [add_to_cart]. *)
Definition added (r : HttpResponse) : Prop :=
  r = Redirect "cart:cart_detail" None \/
  exists rest, r = JsonResponse (("success", VBool true) :: rest).

(** An AJAX GET of user 7 with [?quantity=text]. *)
Definition add_request (text : string) : Request :=
  mkRequest "GET" (Some 7) None "" (Some "XMLHttpRequest") [("quantity", text)] []
            None "".

(** A checkout form with none of the required fields absent or empty. *)
Definition complete (request : Request) : Prop :=
  Forall (fun field => missing request field = false) required_fields.

(** The store of a checkout by user [u] with cart [c] once the order row
    and the first [n] order items are written, and once the cart is
    emptied as well. *)
Definition order_written (d : Order.defaults) (st : Store) (u c : Z)
    (request : Request) (n : nat) : Store :=
  let order := next_pk (orders st) in
  set_order_items
    (order_items st ++ take n (order_item st order <$> (items st c).*2))
    (set_orders (<[order := new_order d u request (get_total_price st c)]> (orders st))
                st).

Definition checked_out (d : Order.defaults) (st : Store) (u c : Z)
    (request : Request) : Store :=
  set_cart_items (filter (fun it => CartItem.cart it.2 <> c) (cart_items st))
                 (order_written d st u c request (length (items st c))).

(** From [st] to [st'] the checkout of cart [c] is all or nothing: a new
    order exists with one order item per line the cart had and the cart
    has no line left, or the store is as it was. *)
Definition all_or_nothing (st st' : Store) (c : Z) : Prop :=
  (exists order new_items,
     orders st !! order = None /\ is_Some (orders st' !! order) /\
     order_items st' = order_items st ++ new_items /\
     Forall (fun oi => OrderItem.order oi = order) new_items /\
     length new_items = length (items st c) /\
     items st' c = []) \/
  st' = st.

Definition checkout_post : Request :=
  mkRequest "POST" (Some 7) None "" None []
    [("first_name", "Ana"); ("last_name", "Ruiz"); ("email", "ana@example.com");
     ("phone", "3001234567"); ("address", "Calle 1"); ("city", "Cali");
     ("country", "Colombia"); ("postal_code", "760001");
     ("payment_method", "paypal")]
    None "".

(** The same form with the e-mail left empty and no city. *)
Definition incomplete_post : Request :=
  mkRequest "POST" (Some 7) None "" None []
    [("first_name", "Ana"); ("last_name", "Ruiz"); ("email", "");
     ("phone", "3001234567"); ("address", "Calle 1");
     ("country", "Colombia"); ("postal_code", "760001");
     ("payment_method", "paypal")]
    None "".

Definition pendiente : Order.defaults :=
  Order.mk_defaults "pendiente" "" "pendiente".

(** A price edit, made outside these views (the admin site writes the
    catalogue): the product with key [pk] gets the price [v]. *)
Definition with_price (v : Z) (p : Product.t) : Product.t :=
  Product.mk (Product.id p) (Product.name p) (Product.description p)
             (Product.slug p) v (Product.is_available p) (Product.category p).

Definition set_price (pk v : Z) (st : Store) : Store :=
  set_products
    ((fun p => if Z.eqb (Product.id p) pk then with_price v p else p) <$> products st)
    st.

(** How many units of the product [pk] the cart holds. *)
Definition units (st : Store) (cart pk : Z) : Z :=
  foldr Z.add 0
    ((fun it => CartItem.quantity it.2)
       <$> filter (fun it => CartItem.product it.2 = pk) (items st cart)).

(** A captured group of the price pattern: one digit or more. *)
Definition is_digit (c : ascii) : Prop := is_Some (digit_value c).

Definition digits (s : string) : Prop :=
  s <> "" /\ Forall is_digit (list_ascii_of_string s).

(** A POST to the chatbot with the JSON body [{"query": q}]. *)
Definition chat_request (q : string) : Request :=
  mkRequest "POST" None None "" None [] [] (Some [("query", JStr q)]) "".


(** * Properties *)

(** ** The store and the monad *)

#[local] Arguments sqlite_integer : simpl never.

Ltac mrun :=
  unfold run, mbind, M_bind, mret, M_ret, read, write, message, raise, or_raise;
  cbn.

Lemma keys_le_max {A} (l : list (Z * A)) k v :
  (k, v) ∈ l -> k <= foldr Z.max 0 (l.*1).
Proof.
  induction l as [|[k' v'] l IH]; intros Hin.
  - inversion Hin.
  - apply elem_of_cons in Hin as [Heq|Hin]; cbn.
    + inversion Heq; subst. lia.
    + specialize (IH Hin). lia.
Qed.

Lemma next_pk_fresh {A} (m : gmap Z A) : m !! next_pk m = None.
Proof.
  destruct (m !! next_pk m) as [a|] eqn:E; [|done].
  apply elem_of_map_to_list, keys_le_max in E. unfold next_pk in E. lia.
Qed.

Lemma order_of_owned st fl f order_id u o :
  orders st !! order_id = Some o -> Order.user o = u ->
  order_of order_id u (mkWorld st fl f) = (Done o, mkWorld st fl f).
Proof.
  intros Ho Hu. unfold order_of, get_object_or_404. mrun.
  rewrite Ho. cbn. by rewrite decide_True.
Qed.

Lemma cart_item_by_id_found st fl f k it :
  cart_items st !! k = Some it ->
  cart_item_by_id (Some (JNum k)) (mkWorld st fl f) = (Done (k, it), mkWorld st fl f).
Proof.
  intros Hit. unfold cart_item_by_id, get_object_or_404. mrun. by rewrite Hit.
Qed.

(** ** Payment *)

Lemma payment_cancel_run st request order_id u o :
  user request = Some u -> orders st !! order_id = Some o -> Order.user o = u ->
  run (payment_cancel request order_id) st None =
  (Done (Redirect "cart:checkout" None),
   mkWorld (set_orders (<[order_id := Order.set_payment_status "fallido" o]> (orders st)) st)
           [(WARNING, "El pago ha sido cancelado.")] None).
Proof.
  intros Hu Ho Hown. unfold run, payment_cancel, login_required. rewrite Hu.
  unfold mbind at 1, M_bind at 1. rewrite (order_of_owned _ _ _ _ _ _ Ho Hown).
  unfold save_order. by mrun.
Qed.

(** C9: for an order owned by the acting user, [payment_cancel] sets
    [payment_status] to fallido and changes nothing else: every other
    column of the order, every other order, the order items, the cart
    items, the carts and the catalogue are as before. *)
Theorem payment_cancel_frame st request order_id u o :
  user request = Some u -> orders st !! order_id = Some o -> Order.user o = u ->
  exists o' w,
    run (payment_cancel request order_id) st None
      = (Done (Redirect "cart:checkout" None), w) /\
    orders (db w) !! order_id = Some o' /\
    Order.payment_status o' = "fallido" /\
    Order.status o' = Order.status o /\
    Order.payment_reference o' = Order.payment_reference o /\
    Order.total_paid o' = Order.total_paid o /\
    Order.payment_method o' = Order.payment_method o /\
    Order.user o' = Order.user o /\
    (Order.first_name o', Order.last_name o', Order.email o', Order.phone o')
      = (Order.first_name o, Order.last_name o, Order.email o, Order.phone o) /\
    (Order.address o', Order.city o', Order.country o', Order.postal_code o')
      = (Order.address o, Order.city o, Order.country o, Order.postal_code o) /\
    (forall k, k <> order_id -> orders (db w) !! k = orders st !! k) /\
    order_items (db w) = order_items st /\
    cart_items (db w) = cart_items st /\
    carts (db w) = carts st /\
    products (db w) = products st /\
    categories (db w) = categories st /\
    chatbot_queries (db w) = chatbot_queries st /\
    cart_item_sequence (db w) = cart_item_sequence st.
Proof.
  intros Hu Ho Hown. eexists _, _. split.
  { by eapply payment_cancel_run. }
  cbn. rewrite lookup_insert_eq. repeat split; try done.
  intros k Hk. by rewrite lookup_insert_ne.
Qed.

Lemma payment_execute_run st request order_id u o :
  user request = Some u -> method request = "POST" ->
  orders st !! order_id = Some o -> Order.user o = u ->
  let payment_id := default "" (dict_get "payment_id" (POST request)) in
  let reference :=
    if String.eqb payment_id ""
    then "PAY-" +:+ upper (substring 0 16 (uuid4_hex request)) else payment_id in
  run (payment_execute request order_id) st None =
  (Done (Redirect "cart:payment_success" (Some order_id)),
   mkWorld
     (set_orders
        (<[order_id := Order.set_status "procesando"
                         (Order.set_payment_reference reference
                           (Order.set_payment_status "completado" o))]> (orders st)) st)
     [(SUCCESS, "¡Tu pago se ha procesado correctamente!")] None).
Proof.
  intros Hu Hm Ho Hown. unfold run, payment_execute, login_required.
  rewrite Hu, Hm. cbn [String.eqb Ascii.eqb Bool.eqb].
  unfold mbind at 1, M_bind at 1. rewrite (order_of_owned _ _ _ _ _ _ Ho Hown).
  unfold save_order. by mrun.
Qed.

(** Posted twice with the same payment id, [payment_execute] leaves the
    store after the second call as it is after the first. *)
Lemma payment_execute_same_id_twice st request order_id u o payment_id :
  user request = Some u -> method request = "POST" ->
  orders st !! order_id = Some o -> Order.user o = u ->
  dict_get "payment_id" (POST request) = Some payment_id -> payment_id <> "" ->
  let st1 := db (run (payment_execute request order_id) st None).2 in
  db (run (payment_execute request order_id) st1 None).2 = st1.
Proof.
  intros Hu Hm Ho Hown Hid Hne. cbn zeta.
  rewrite (payment_execute_run st request order_id u o Hu Hm Ho Hown).
  cbn [snd db].
  match goal with
  | |- context [<[order_id := ?o1]> (orders st)] =>
      rewrite (payment_execute_run _ request order_id u o1 Hu Hm);
        [|apply lookup_insert_eq|by destruct o]
  end.
  cbn [snd db]. cbn. rewrite insert_insert_eq. by destruct o.
Qed.

(** C2: executed again on an order that is already completado,
    [payment_execute] stores a second, different payment reference. *)
Theorem payment_execute_second_reference :
  Order.payment_status paid_order = "completado" /\
  Order.payment_reference paid_order = "PAY-0123456789ABCDEF" /\
  Order.payment_reference
    <$> orders (db (run (payment_execute second_post 1) paid_store None).2) !! 1
  = Some "PAY-FEDCBA9876543210".
Proof. by vm_compute. Qed.

(** ** Updating a cart line *)

Lemma update_cart_run st request k action it :
  update_request request k action -> cart_items st !! k = Some it ->
  run (update_cart request) st None =
  let q := CartItem.quantity it in
  let saved row :=
    if sqlite_integer (CartItem.quantity row) then
      let st' := set_cart_items (<[k := row]> (cart_items st)) st in
      (Done (updated_response st' row), mkWorld st' [] None)
    else (Raised OverflowError, mkWorld st [] None) in
  let deleted :=
    let st' := set_cart_items (delete k (cart_items st)) st in
    (Done (removed_response st' (CartItem.cart it)), mkWorld st' [] None) in
  if bool_decide (action = Some (JStr "increase")) then
    saved (CartItem.set_quantity (q + 1) it)
  else if bool_decide (action = Some (JStr "decrease")) then
    if bool_decide (q > 1) then saved (CartItem.set_quantity (q - 1) it) else deleted
  else if bool_decide (action = Some (JStr "remove")) then deleted
  else saved it.
Proof.
  intros (Hm & Hx & data & Hb & Hid & Hact) Hit.
  unfold run, update_cart. rewrite Hm, Hx, Hb.
  cbn [String.eqb Ascii.eqb Bool.eqb andb or_raise].
  unfold mbind at 1, M_bind at 1. cbn [mret M_ret]. rewrite Hid, Hact.
  unfold mbind at 1, M_bind at 1. rewrite (cart_item_by_id_found _ _ _ _ _ Hit).
  cbn [fst snd CartItem.set_quantity CartItem.quantity].
  repeat case_bool_decide; unfold save_cart_item, delete_cart_item;
    cbn [CartItem.set_quantity CartItem.quantity];
    try (destruct (sqlite_integer _)); by mrun.
Qed.

(** C10: for an existing cart line and an action other than increase,
    decrease and remove, [update_cart] does not fail: the store is left as
    it was and the answer is the success response with the line's current
    quantity and cost and the cart's unchanged totals.  (The line is one
    the store holds: its quantity is a value of the integer column.) *)
Theorem update_cart_unknown_action st request k action it :
  update_request request k action -> cart_items st !! k = Some it ->
  sqlite_integer (CartItem.quantity it) = true ->
  action <> Some (JStr "increase") ->
  action <> Some (JStr "decrease") ->
  action <> Some (JStr "remove") ->
  run (update_cart request) st None =
  (Done (JsonResponse [
     ("success", VBool true);
     ("item_total", VMoney (get_cost st it));
     ("quantity", VInt (CartItem.quantity it));
     ("cart_total", VMoney (get_total_price st (CartItem.cart it)));
     ("cart_items_count", VInt (get_total_items st (CartItem.cart it)))]),
   mkWorld st [] None).
Proof.
  intros Hreq Hit Hfits H1 H2 H3. rewrite (update_cart_run _ _ _ _ _ Hreq Hit). cbn zeta.
  rewrite !bool_decide_eq_false_2 by done. rewrite Hfits.
  rewrite (insert_id _ _ _ Hit). by destruct st.
Qed.

(** Whatever the request and whichever write fails, [update_cart] leaves
    the cart lines as they were or changes one existing line in one of
    three ways. *)
Lemma update_cart_cart_items request st f :
  let m := cart_items st in
  let m' := cart_items (db (run (update_cart request) st f).2) in
  m' = m \/
  exists k it,
    m !! k = Some it /\
    (m' = <[k := CartItem.set_quantity (CartItem.quantity it + 1) it]> m \/
     (CartItem.quantity it > 1 /\
      m' = <[k := CartItem.set_quantity (CartItem.quantity it - 1) it]> m) \/
     m' = delete k m).
Proof.
  cbn zeta. destruct (run (update_cart request) st f) as [r w] eqn:Hrun.
  cbn [snd]. revert Hrun. unfold run, update_cart.
  destruct (String.eqb (method request) "POST" && is_ajax request);
    [|intros [= <- <-]; by left].
  destruct (body request) as [data|]; [|intros [= <- <-]; by left].
  cbn [or_raise]. unfold mbind at 1, M_bind at 1. cbn [mret M_ret].
  unfold mbind at 1, M_bind at 1.
  assert (Hget :
    (exists e, cart_item_by_id (dict_get "item_id" data) (mkWorld st [] f)
               = (Raised e, mkWorld st [] f)) \/
    (exists k it, cart_items st !! k = Some it /\
       cart_item_by_id (dict_get "item_id" data) (mkWorld st [] f)
       = (Done (k, it), mkWorld st [] f))).
  { unfold cart_item_by_id, get_object_or_404.
    destruct (dict_get "item_id" data) as [[|b|z|s]|]; mrun; eauto.
    - destruct (cart_items st !! (if b then 1 else 0)) eqn:E; cbn; eauto 8.
    - destruct (cart_items st !! z) eqn:E; cbn; eauto 8.
    - destruct (py_int s) as [z|]; cbn; eauto.
      destruct (cart_items st !! z) eqn:E; cbn; eauto 8. }
  destruct Hget as [[e ->]|(k & it & Hit & ->)]; [intros [= <- <-]; by left|].
  cbn [fst snd].
  repeat case_bool_decide; unfold save_cart_item, delete_cart_item;
    cbn [CartItem.set_quantity CartItem.quantity];
    try (destruct (sqlite_integer _)); mrun;
    destruct f as [[|n]|]; cbn; intros [= <- <-]; cbn; eauto 10;
    left; by rewrite insert_id.
Qed.

Lemma update_cart_keeps_quantities_positive request st f :
  quantities_positive st ->
  quantities_positive (db (run (update_cart request) st f).2).
Proof.
  unfold quantities_positive. intros Hpos.
  destruct (update_cart_cart_items request st f)
    as [->|(k & it & Hit & [->|[[Hq ->]| ->]])]; [done|..].
  - apply map_Forall_insert_2; [|done]. specialize (Hpos _ _ Hit). cbn in *. lia.
  - apply map_Forall_insert_2; [|done]. cbn. lia.
  - by apply map_Forall_delete.
Qed.

Lemma sqlite_integer_spec z :
  sqlite_integer z = true <-> - 2 ^ 63 <= z < 2 ^ 63.
Proof.
  unfold sqlite_integer. rewrite andb_true_iff, Z.leb_le, Z.ltb_lt. done.
Qed.

(** C4, as the code has it.  On a cart line that the store holds, with
    quantity [q]: increase saves the line with quantity [q + 1] and
    reports it, unless [q] is the largest value of the column, where the
    save raises [OverflowError] and the store is left as it was; decrease
    saves the line with [q - 1] when [q] is above one and deletes the
    line when [q] is one or less; remove deletes the line whatever the
    quantity.  The cart and the product of a saved line are as before.
    And when every persisted line had a quantity of at least one before
    the request, every persisted line has one after it, whatever the
    request and whichever write fails. *)
Theorem update_cart_quantity st request k action it :
  update_request request k action -> cart_items st !! k = Some it ->
  sqlite_integer (CartItem.quantity it) = true ->
  let q := CartItem.quantity it in
  let line n := CartItem.mk (CartItem.cart it) (CartItem.product it) n in
  let r := run (update_cart request) st None in
  let st' := db r.2 in
  (action = Some (JStr "increase") -> q < 2 ^ 63 - 1 ->
   r.1 = Done (updated_response st' (line (q + 1))) /\
   cart_items st' = <[k := line (q + 1)]> (cart_items st)) /\
  (action = Some (JStr "increase") -> q = 2 ^ 63 - 1 ->
   r = (Raised OverflowError, mkWorld st [] None)) /\
  (action = Some (JStr "decrease") -> q > 1 ->
   r.1 = Done (updated_response st' (line (q - 1))) /\
   cart_items st' = <[k := line (q - 1)]> (cart_items st)) /\
  (action = Some (JStr "decrease") -> q <= 1 ->
   r.1 = Done (removed_response st' (CartItem.cart it)) /\
   cart_items st' = delete k (cart_items st) /\ cart_items st' !! k = None) /\
  (action = Some (JStr "remove") ->
   r.1 = Done (removed_response st' (CartItem.cart it)) /\
   cart_items st' = delete k (cart_items st) /\ cart_items st' !! k = None) /\
  (forall request' f,
     quantities_positive st ->
     quantities_positive (db (run (update_cart request') st f).2)).
Proof.
  intros Hreq Hit Hfits. cbn zeta.
  pose proof (update_cart_run _ _ _ _ _ Hreq Hit) as Hrun. cbn zeta in Hrun.
  apply sqlite_integer_spec in Hfits.
  split_and!.
  - intros -> Hq. rewrite Hrun.
    rewrite bool_decide_eq_true_2 by done. cbn [CartItem.set_quantity CartItem.quantity].
    replace (sqlite_integer (CartItem.quantity it + 1)) with true
      by (symmetry; apply sqlite_integer_spec; lia).
    done.
  - intros -> Hq. rewrite Hrun.
    rewrite bool_decide_eq_true_2 by done. cbn [CartItem.set_quantity CartItem.quantity].
    replace (sqlite_integer (CartItem.quantity it + 1)) with false; [done|].
    symmetry. apply not_true_is_false. rewrite sqlite_integer_spec. lia.
  - intros -> Hq. rewrite Hrun.
    rewrite bool_decide_eq_false_2 by done.
    rewrite !bool_decide_eq_true_2 by done.
    cbn [CartItem.set_quantity CartItem.quantity].
    replace (sqlite_integer (CartItem.quantity it - 1)) with true
      by (symmetry; apply sqlite_integer_spec; lia).
    done.
  - intros -> Hq. rewrite Hrun.
    rewrite bool_decide_eq_false_2 by done.
    rewrite bool_decide_eq_true_2 by done.
    rewrite bool_decide_eq_false_2 by lia.
    split_and!; [done..|apply lookup_delete_eq].
  - intros ->. rewrite Hrun.
    rewrite !bool_decide_eq_false_2 by done.
    rewrite bool_decide_eq_true_2 by done.
    split_and!; [done..|apply lookup_delete_eq].
  - intros request' f. apply update_cart_keeps_quantities_positive.
Qed.

Lemma payment_cancel_frame_witness :
  exists o' w,
    run (payment_cancel cancel_request 1) shop None
      = (Done (Redirect "cart:checkout" None), w) /\
    orders (db w) !! 1 = Some o' /\
    Order.payment_status o' = "fallido" /\
    Order.status o' = "procesando" /\
    order_items (db w) = order_items shop /\
    cart_items (db w) = cart_items shop.
Proof.
  destruct (payment_cancel_frame shop cancel_request 1 7 paid_order)
    as (o' & w & Hrun & Ho & Hp & Hs & _ & _ & _ & _ & _ & _ & _ & Hoi & Hci & _);
    [reflexivity..|].
  exists o', w. repeat split; assumption.
Defined.

Lemma update_cart_unknown_action_witness :
  run (update_cart (ajax_post [("item_id", JNum 1); ("action", JStr "double")]))
      shop None =
  (Done (JsonResponse [
     ("success", VBool true);
     ("item_total", VMoney 100000);
     ("quantity", VInt 2);
     ("cart_total", VMoney 180000);
     ("cart_items_count", VInt 3)]),
   mkWorld shop [] None).
Proof.
  apply (update_cart_unknown_action shop _ 1 (Some (JStr "double")) (CartItem.mk 1 1 2)).
  - repeat split. eexists. repeat split; reflexivity.
  - reflexivity.
  - reflexivity.
  - discriminate.
  - discriminate.
  - discriminate.
Defined.

Lemma update_cart_quantity_witness :
  cart_items (db (run (update_cart (ajax_post [("item_id", JNum 1);
                                               ("action", JStr "increase")]))
                      shop None).2)
  = <[1 := CartItem.mk 1 1 3]> (cart_items shop) /\
  cart_items (db (run (update_cart (ajax_post [("item_id", JNum 2);
                                               ("action", JStr "decrease")]))
                      shop None).2) !! 2 = None.
Proof.
  split.
  - pose proof (update_cart_quantity shop
                  (ajax_post [("item_id", JNum 1); ("action", JStr "increase")])
                  1 (Some (JStr "increase")) (CartItem.mk 1 1 2)) as H.
    cbn zeta in H.
    refine (proj2 (proj1 (H _ _ _) eq_refl _)).
    + repeat split. eexists. repeat split; reflexivity.
    + reflexivity.
    + reflexivity.
    + reflexivity.
  - pose proof (update_cart_quantity shop
                  (ajax_post [("item_id", JNum 2); ("action", JStr "decrease")])
                  2 (Some (JStr "decrease")) (CartItem.mk 1 2 1)) as H.
    cbn zeta in H.
    refine (proj2 (proj2 (proj1 (proj2 (proj2 (proj2 (H _ _ _)))) eq_refl _))).
    + repeat split. eexists. repeat split; reflexivity.
    + reflexivity.
    + reflexivity.
    + cbn. lia.
Defined.

(** C4 as stated does not hold on every cart line.  A line that
    [add_to_cart] stored with the largest quantity of the column is not
    increased: the save raises [OverflowError] and the line stays as it
    is.  And a line that [add_to_cart] stored with quantity 0 is still
    persisted with quantity 0 after an increase of another line. *)
Lemma increase_at_largest_quantity :
  (let full :=
     db (run (add_to_cart (add_request "9223372036854775807") 3) shop None).2 in
   cart_items full !! 3 = Some (CartItem.mk 1 3 9223372036854775807) /\
   run (update_cart (ajax_post [("item_id", JNum 3); ("action", JStr "increase")]))
       full None
   = (Raised OverflowError, mkWorld full [] None)) /\
  (let zero := db (run (add_to_cart (add_request "0") 3) shop None).2 in
   let r := run (update_cart (ajax_post [("item_id", JNum 1);
                                         ("action", JStr "increase")])) zero None in
   cart_items zero !! 3 = Some (CartItem.mk 1 3 0) /\
   (exists response, r.1 = Done response) /\
   cart_items (db r.2) !! 1 = Some (CartItem.mk 1 1 3) /\
   cart_items (db r.2) !! 3 = Some (CartItem.mk 1 3 0)).
Proof.
  split; cbn zeta.
  - split; by vm_compute.
  - split_and!; [by vm_compute|eexists; by vm_compute|by vm_compute..].
Qed.

(** ** Adding to the cart *)

Lemma get_cart_existing st fl f request u c :
  user request = Some u -> cart_of st u c ->
  exists row, _get_or_create_cart request (mkWorld st fl f)
              = (Done (c, row), mkWorld st fl f).
Proof.
  intros Hu [row Hrow]. exists row.
  unfold _get_or_create_cart, get_or_create. rewrite Hu. mrun. by rewrite Hrow.
Qed.

Lemma available_id st product_id product :
  available st product_id product -> Product.id product = product_id.
Proof.
  unfold available. intros H.
  assert (Hin : product ∈ filter (fun p => Product.id p = product_id /\
                                          Product.is_available p = true) (products st))
    by (rewrite H; apply list_elem_of_here).
  apply list_elem_of_filter in Hin. tauto.
Qed.

Lemma autoincrement_fresh {A} (sequence : Z) (m : gmap Z A) :
  m !! autoincrement sequence m = None /\ sequence < autoincrement sequence m.
Proof.
  split; [|unfold autoincrement; lia].
  destruct (m !! autoincrement sequence m) as [a|] eqn:E; [|done].
  apply elem_of_map_to_list, keys_le_max in E.
  unfold autoincrement, largest_pk in E. lia.
Qed.

(** The line that [CartItem.objects.get(cart=cart, product=product)]
    finds is a row of the table, of that cart and of that product. *)
Lemma get_cart_item_row st c product_id k it :
  get_cart_item st c product_id = Got (k, it) ->
  cart_items st !! k = Some it /\
  CartItem.cart it = c /\ CartItem.product it = product_id.
Proof.
  unfold get_cart_item, objects_get, rows. intros Hgot.
  destruct (filter _ (map_to_list (cart_items st))) as [|row [|row' l]] eqn:Hf;
    try done.
  injection Hgot as ->.
  assert (Hin : (k, it) ∈ filter
            (fun it : Z * CartItem.t =>
               CartItem.cart it.2 = c /\ CartItem.product it.2 = product_id)
            (map_to_list (cart_items st)))
    by (rewrite Hf; apply list_elem_of_here).
  apply list_elem_of_filter in Hin as [[Hcart Hproduct] Hin].
  by apply elem_of_map_to_list in Hin.
Qed.

(** C3, as the code has it: [add_to_cart] checks no quantity and has no
    failure for a quantity below one.  For an available product and an
    integer quantity [q], zero and negative ones included: when the cart
    has a line for the product, the answer is success and the line is
    saved with its quantity plus [q], for the same cart and product; when
    it has none, the answer is success and one line with quantity [q] is
    created under a key larger than every key the table has given.  (The
    column behind [quantity] is declared in [cart/models.py]; the
    statement is kept to resulting quantities from 0 to 2^63 - 1, which
    every integer column of SQLite stores.) *)
Theorem add_to_cart_any_quantity st request product_id product u c q :
  available st product_id product ->
  user request = Some u -> cart_of st u c ->
  requested_quantity request = Some q ->
  (forall k it,
     get_cart_item st c product_id = Got (k, it) ->
     0 <= CartItem.quantity it + q < 2 ^ 63 ->
     exists r w,
       run (add_to_cart request product_id) st None = (Done r, w) /\ added r /\
       cart_items st !! k = Some it /\
       cart_items (db w)
       = <[k := CartItem.mk c product_id (CartItem.quantity it + q)]> (cart_items st)) /\
  (get_cart_item st c product_id = DoesNotExist ->
   0 <= q < 2 ^ 63 ->
   exists r w k,
     run (add_to_cart request product_id) st None = (Done r, w) /\ added r /\
     cart_items st !! k = None /\
     cart_item_sequence st < k /\ cart_item_sequence (db w) = k /\
     cart_items (db w) = <[k := CartItem.mk c product_id q]> (cart_items st)).
Proof.
  intros Hp Hu Hc Hq.
  pose proof (available_id _ _ _ Hp) as Hid.
  destruct (get_cart_existing st [] None request u c Hu Hc) as [row Hcart].
  assert (Hint : int_quantity (if is_ajax request then GET request else POST request)
                 = mret q).
  { unfold requested_quantity in Hq. unfold int_quantity.
    destruct (dict_get "quantity" _); [by rewrite Hq|by injection Hq as <-]. }
  unfold available in Hp.
  split; [intros k it Hgot Hpos|intros Hgot Hpos].
  - destruct (get_cart_item_row _ _ _ _ _ Hgot) as (Hrow & Hcart_it & Hproduct_it).
    assert (Hfits : sqlite_integer (CartItem.quantity it + q) = true)
      by (apply sqlite_integer_spec; lia).
    assert (Hline : CartItem.set_quantity (CartItem.quantity it + q) it
                    = CartItem.mk c product_id (CartItem.quantity it + q))
      by (unfold CartItem.set_quantity; by rewrite Hcart_it, Hproduct_it).
    unfold run, add_to_cart, get_object_or_404.
    unfold mbind at 1, M_bind at 1; unfold read at 1; cbn [db].
    rewrite Hp; cbn [objects_get].
    unfold mbind at 1, M_bind at 1; cbn [mret M_ret].
    unfold mbind at 1, M_bind at 1; rewrite Hcart.
    destruct (is_ajax request); rewrite Hint;
      unfold save_cart_item, create_cart_item; mrun; rewrite Hid, Hgot;
      cbn [fst snd]; rewrite Hfits, Hline; cbn;
      eexists _, _; (split; [reflexivity|]); unfold added; eauto.
  - assert (Hfits : sqlite_integer q = true) by (apply sqlite_integer_spec; lia).
    destruct (autoincrement_fresh (cart_item_sequence st) (cart_items st))
      as [Hfresh Hlarger].
    unfold run, add_to_cart, get_object_or_404.
    unfold mbind at 1, M_bind at 1; unfold read at 1; cbn [db].
    rewrite Hp; cbn [objects_get].
    unfold mbind at 1, M_bind at 1; cbn [mret M_ret].
    unfold mbind at 1, M_bind at 1; rewrite Hcart.
    destruct (is_ajax request); rewrite Hint;
      unfold save_cart_item, create_cart_item; mrun; rewrite Hid, Hgot;
      cbn [fst snd]; rewrite Hfits; cbn;
      eexists _, _, _; (split; [reflexivity|]); unfold added; eauto 10.
Qed.

Lemma add_to_cart_any_quantity_witness :
  (exists r w,
     run (add_to_cart (add_request "3") 1) shop None = (Done r, w) /\ added r /\
     cart_items shop !! 1 = Some (CartItem.mk 1 1 2) /\
     cart_items (db w) = <[1 := CartItem.mk 1 1 (2 + 3)]> (cart_items shop)) /\
  (exists r w k,
     run (add_to_cart (add_request "0") 3) shop None = (Done r, w) /\ added r /\
     cart_items shop !! k = None /\
     cart_item_sequence shop < k /\ cart_item_sequence (db w) = k /\
     cart_items (db w) = <[k := CartItem.mk 1 3 0]> (cart_items shop)).
Proof.
  split.
  - apply (proj1 (add_to_cart_any_quantity shop (add_request "3") 1 mouse 7 1 3
                    eq_refl eq_refl (ex_intro _ _ eq_refl) eq_refl)
                 1 (CartItem.mk 1 1 2)).
    + reflexivity.
    + cbn. lia.
  - apply (proj2 (add_to_cart_any_quantity shop (add_request "0") 3 silla 7 1 0
                    eq_refl eq_refl (ex_intro _ _ eq_refl) eq_refl)).
    + reflexivity.
    + lia.
Defined.

(** C3 as stated does not hold: with quantity 0 for a product the cart
    does not hold yet, [add_to_cart] answers success and creates a line
    with quantity 0; with quantity -1 for a product the cart holds twice,
    it answers success and lowers the line to 1. *)
Lemma add_to_cart_accepts_zero_and_negative :
  (let r := run (add_to_cart (add_request "0") 3) shop None in
   r.1 = Done (JsonResponse [
           ("success", VBool true);
           ("message", VStr "Silla Gaming añadido al carrito");
           ("cart_items_count", VInt 3);
           ("cart_total", VMoney 180000)]) /\
   cart_items shop !! 3 = None /\
   cart_items (db r.2) !! 3 = Some (CartItem.mk 1 3 0)) /\
  (let r := run (add_to_cart (add_request "-1") 1) shop None in
   r.1 = Done (JsonResponse [
           ("success", VBool true);
           ("message", VStr "Mouse Gaming añadido al carrito");
           ("cart_items_count", VInt 2);
           ("cart_total", VMoney 130000)]) /\
   cart_items shop !! 1 = Some (CartItem.mk 1 1 2) /\
   cart_items (db r.2) !! 1 = Some (CartItem.mk 1 1 1)).
Proof. by vm_compute. Qed.

(** ** Checkout *)

Lemma find_first {A} (p : A -> bool) (l : list A) x :
  x ∈ l -> p x = true ->
  exists first before after,
    l = before ++ first :: after /\
    Forall (fun y => p y = false) before /\
    p first = true /\
    List.find p l = Some first.
Proof.
  induction l as [|y l IH]; intros Hin Hp.
  - inversion Hin.
  - destruct (p y) eqn:Hy.
    + exists y, [], l. cbn. by rewrite Hy.
    + apply elem_of_cons in Hin as [->|Hin]; [congruence|].
      destruct (IH Hin Hp) as (first & before & after & -> & Hb & Hf & Hfind).
      exists first, (y :: before), after. cbn. rewrite Hy. split_and!; auto.
Qed.

Lemma find_none {A} (p : A -> bool) (l : list A) :
  Forall (fun y => p y = false) l -> List.find p l = None.
Proof. induction 1 as [|y l Hy _ IH]; cbn; [done|by rewrite Hy]. Qed.

(** The start of [checkout] for a user whose cart has a line. *)
Lemma checkout_nonempty d st request u c f :
  user request = Some u -> cart_of st u c -> items st c <> [] ->
  method request = "POST" ->
  run (checkout d request) st f =
  match List.find (missing request) required_fields with
  | Some field =>
      (Done (Redirect "cart:checkout" None),
       mkWorld st [(ERROR, "El campo " +:+ field +:+ " es obligatorio")] f)
  | None =>
      let order := next_pk (orders st) in
      (write (fun st => set_orders (<[order := new_order d u request (get_total_price st c)]>
                                      (orders st)) st);;
       st ← read;
       for_each (items st c) (create_order_item order);;
       delete_items c;;
       message SUCCESS "¡Tu pedido ha sido creado correctamente!";;
       mret (Redirect "cart:payment_process" (Some order))) (mkWorld st [] f)
  end.
Proof.
  intros Hu Hc Hitems Hm.
  destruct (get_cart_existing st [] f request u c Hu Hc) as [row Hcart].
  unfold run, checkout, login_required. rewrite Hu.
  unfold mbind at 1, M_bind at 1. rewrite Hcart.
  unfold mbind at 1, M_bind at 1. unfold read at 1. cbn [db fst].
  rewrite bool_decide_eq_false_2 by (by destruct (items st c)).
  rewrite Hm. cbn [String.eqb Ascii.eqb Bool.eqb].
  destruct (List.find (missing request) required_fields); [by mrun|].
  (* the total is computed before the order row is written *)
  unfold mbind at 1, M_bind at 1, write at 1. cbn [faults db flash].
  symmetry. unfold mbind at 1, M_bind at 1, write at 1. cbn [faults db flash].
  by destruct f as [[|n]|].
Qed.

(** With a required field missing, no request to [checkout] writes an
    order or an order item, whoever sends it and whatever the cart. *)
Lemma checkout_missing_writes_no_order d st request f field :
  List.find (missing request) required_fields = Some field ->
  orders (db (run (checkout d request) st f).2) = orders st /\
  order_items (db (run (checkout d request) st f).2) = order_items st.
Proof.
  intros Hfind. unfold run, checkout, login_required. rewrite Hfind.
  unfold _get_or_create_cart, get_or_create.
  destruct (user request) as [u|]; [|done]. mrun.
  match goal with |- context [objects_get ?l] => destruct (objects_get l) as [|cart|] end;
    mrun; [|..|done].
  - destruct f as [[|n]|]; cbn; [done|..];
      case_bool_decide; cbn; try done;
      by destruct (String.eqb (method request) "POST").
  - case_bool_decide; cbn; [done|].
    by destruct (String.eqb (method request) "POST").
Qed.

(** C6: a checkout POST with a required field absent or empty creates no
    Order and no OrderItem; for a user whose cart has a line it is
    answered with the error message that names the first such field in
    the order first_name, last_name, email, phone, address, city, country,
    postal_code, payment_method, and the whole store is left as it was. *)
Theorem checkout_missing_field d st request f field :
  method request = "POST" ->
  field ∈ required_fields -> missing request field = true ->
  (orders (db (run (checkout d request) st f).2) = orders st /\
   order_items (db (run (checkout d request) st f).2) = order_items st) /\
  (forall u c,
     user request = Some u -> cart_of st u c -> items st c <> [] ->
     exists first before after,
       required_fields = before ++ first :: after /\
       Forall (fun f => missing request f = false) before /\
       missing request first = true /\
       run (checkout d request) st f =
       (Done (Redirect "cart:checkout" None),
        mkWorld st [(ERROR, "El campo " +:+ first +:+ " es obligatorio")] f)).
Proof.
  intros Hm Hin Hmiss.
  destruct (find_first _ _ _ Hin Hmiss) as (first & before & after & Hl & Hb & Hf & Hfind).
  split; [by eapply checkout_missing_writes_no_order|].
  intros u c Hu Hc Hitems.
  exists first, before, after. split_and!; try done.
  by rewrite (checkout_nonempty d st request u c f Hu Hc Hitems Hm), Hfind.
Qed.

Lemma checkout_missing_field_witness :
  order_items (db (run (checkout pendiente incomplete_post) shop None).2)
  = order_items shop /\
  exists first before after,
    required_fields = before ++ first :: after /\
    Forall (fun f => missing incomplete_post f = false) before /\
    missing incomplete_post first = true /\
    run (checkout pendiente incomplete_post) shop None =
    (Done (Redirect "cart:checkout" None),
     mkWorld shop [(ERROR, "El campo " +:+ first +:+ " es obligatorio")] None).
Proof.
  destruct (checkout_missing_field pendiente shop incomplete_post None "city")
    as [[_ Hitems] Hnamed].
  - reflexivity.
  - unfold required_fields. set_solver.
  - reflexivity.
  - split; [exact Hitems|]. apply (Hnamed 7 1).
    + reflexivity.
    + eexists. reflexivity.
    + discriminate.
Defined.

(** The field that the incomplete form is told about is the e-mail, the
    first of its two missing fields. *)
Example checkout_names_email :
  run (checkout pendiente incomplete_post) shop None =
  (Done (Redirect "cart:checkout" None),
   mkWorld shop [(ERROR, "El campo email es obligatorio")] None).
Proof. reflexivity. Qed.

Lemma set_order_items_id st : set_order_items (order_items st) st = st.
Proof. by destruct st. Qed.

(** The loop that writes the order items: it stops at the write that
    fails, with the items written so far committed. *)
Lemma create_order_items_run order (l : list (Z * CartItem.t)) st fl f :
  for_each l (create_order_item order) (mkWorld st fl f) =
  let written n :=
    set_order_items (order_items st ++ take n (order_item st order <$> l.*2)) st in
  match f with
  | None => (Done tt, mkWorld (written (length l)) fl None)
  | Some j =>
      if decide (j < length l)%nat
      then (Raised OperationalError, mkWorld (written j) fl None)
      else (Done tt, mkWorld (written (length l)) fl (Some (j - length l)%nat))
  end.
Proof.
  cbn zeta. revert st f. induction l as [|x l IH]; intros st f.
  - cbn. rewrite app_nil_r, set_order_items_id.
    destruct f as [j|]; [|done]. by rewrite Nat.sub_0_r.
  - cbn [for_each]. unfold mbind, M_bind, create_order_item at 1, write at 1.
    cbn [faults db flash].
    destruct f as [[|j]|].
    + cbn. by rewrite app_nil_r, set_order_items_id.
    + fold (@mbind M _). rewrite IH. cbn -[take decide].
      rewrite <- !app_assoc. cbn -[decide].
      destruct (decide (j < length l)%nat), (decide (S j < S (length l))%nat);
        try lia; done.
    + fold (@mbind M _). rewrite IH. cbn. by rewrite <- !app_assoc.
Qed.

Lemma items_after_delete (m : gmap Z CartItem.t) st c :
  items (set_cart_items (filter (fun it => CartItem.cart it.2 <> c) m) st) c = [].
Proof.
  apply elem_of_nil_inv. intros x Hx. unfold items, rows in Hx. cbn in Hx.
  apply list_elem_of_filter in Hx as [Hc Hin].
  destruct x as [k it]. apply elem_of_map_to_list in Hin.
  apply map_lookup_filter_Some in Hin as [_ Hne]. by apply Hne.
Qed.

(** The writes of a checkout that passed validation, under every
    schedule of a failing write. *)
Lemma checkout_run d st request u c f :
  user request = Some u -> cart_of st u c -> items st c <> [] ->
  method request = "POST" -> complete request ->
  let n := length (items st c) in
  run (checkout d request) st f =
  match f with
  | Some O => (Raised OperationalError, mkWorld st [] None)
  | Some (S k) =>
      if decide (k <= n)%nat
      then (Raised OperationalError, mkWorld (order_written d st u c request k) [] None)
      else (Done (Redirect "cart:payment_process" (Some (next_pk (orders st)))),
            mkWorld (checked_out d st u c request)
                    [(SUCCESS, "¡Tu pedido ha sido creado correctamente!")]
                    (Some (S k - (n + 2))%nat))
  | None =>
      (Done (Redirect "cart:payment_process" (Some (next_pk (orders st)))),
       mkWorld (checked_out d st u c request)
               [(SUCCESS, "¡Tu pedido ha sido creado correctamente!")] None)
  end.
Proof.
  intros Hu Hc Hitems Hm Hall. cbn zeta.
  rewrite (checkout_nonempty d st request u c f Hu Hc Hitems Hm).
  rewrite (find_none _ _ Hall). cbn zeta.
  unfold mbind at 1, M_bind at 1, write at 1. cbn [faults db flash].
  destruct f as [[|k]|]; [done|..].
  - unfold mbind at 1, M_bind at 1, read at 1. cbn [db].
    unfold mbind at 1, M_bind at 1. rewrite create_order_items_run. cbn zeta.
    change (items (set_orders _ st) c) with (items st c).
    destruct (decide (k < length (items st c))%nat) as [Hlt|Hge].
    + rewrite decide_True by lia. by unfold order_written.
    + unfold mbind at 1, M_bind at 1, delete_items, write at 1. cbn [faults db flash].
      destruct (k - length (items st c))%nat as [|k'] eqn:Hk.
      * rewrite decide_True by lia. unfold order_written.
        by replace k with (length (items st c)) by lia.
      * rewrite decide_False by lia. mrun. unfold checked_out, order_written.
        do 3 f_equal. lia.
  - unfold mbind at 1, M_bind at 1, read at 1. cbn [db].
    unfold mbind at 1, M_bind at 1. rewrite create_order_items_run. cbn zeta.
    change (items (set_orders _ st) c) with (items st c).
    unfold delete_items. by mrun.
Qed.

(** What a checkout without a failing write leaves behind. *)
Lemma checkout_committed d st request u c :
  user request = Some u -> cart_of st u c -> items st c <> [] ->
  method request = "POST" -> complete request ->
  let order := next_pk (orders st) in
  let st' := checked_out d st u c request in
  run (checkout d request) st None =
    (Done (Redirect "cart:payment_process" (Some order)),
     mkWorld st' [(SUCCESS, "¡Tu pedido ha sido creado correctamente!")] None) /\
  orders st' = <[order := new_order d u request (get_total_price st c)]> (orders st) /\
  order_items st' = order_items st ++ (order_item st order <$> (items st c).*2).
Proof.
  intros Hu Hc Hitems Hm Hall. cbn zeta. split_and!.
  - by rewrite (checkout_run d st request u c None).
  - done.
  - cbn. by rewrite firstn_all2 by (rewrite !length_fmap; lia).
Qed.

(** C1, as the code has it: the views open no transaction, so a checkout
    that passed validation is all-or-nothing as long as no write after the
    first one fails.  When every write succeeds, the new Order exists with
    one OrderItem per cart line and the cart has no line left; when the
    first write fails, the store is as it was.  When a later write fails,
    the Order and the OrderItems written before it stay, and the cart
    keeps its lines. *)
Theorem checkout_all_or_nothing_without_later_fault d st request u c :
  user request = Some u -> cart_of st u c -> items st c <> [] ->
  method request = "POST" -> complete request ->
  let n := length (items st c) in
  let order := next_pk (orders st) in
  let st' := checked_out d st u c request in
  (run (checkout d request) st None =
     (Done (Redirect "cart:payment_process" (Some order)),
      mkWorld st' [(SUCCESS, "¡Tu pedido ha sido creado correctamente!")] None) /\
   orders st !! order = None /\
   orders st' = <[order := new_order d u request (get_total_price st c)]> (orders st) /\
   order_items st' = order_items st ++ (order_item st order <$> (items st c).*2) /\
   items st' c = [] /\
   all_or_nothing st st' c) /\
  run (checkout d request) st (Some 0%nat) = (Raised OperationalError, mkWorld st [] None) /\
  (forall k, (k <= n)%nat ->
     let partial := order_written d st u c request k in
     run (checkout d request) st (Some (S k))
       = (Raised OperationalError, mkWorld partial [] None) /\
     is_Some (orders partial !! order) /\
     order_items partial = order_items st ++ take k (order_item st order <$> (items st c).*2) /\
     cart_items partial = cart_items st).
Proof.
  intros Hu Hc Hitems Hm Hall. cbn zeta.
  assert (Hfull : order_items (checked_out d st u c request) =
                  order_items st ++ (order_item st (next_pk (orders st)) <$> (items st c).*2)).
  { cbn. by rewrite firstn_all2 by (rewrite !length_fmap; lia). }
  split_and!.
  - by rewrite (checkout_run d st request u c None).
  - apply next_pk_fresh.
  - done.
  - done.
  - apply items_after_delete.
  - left. eexists _, _. split_and!.
    + apply next_pk_fresh.
    + cbn. rewrite lookup_insert_eq. eauto.
    + exact Hfull.
    + apply Forall_forall. intros oi Hoi.
      apply list_elem_of_fmap in Hoi as (it & -> & _). done.
    + by rewrite !length_fmap.
    + apply items_after_delete.
  - by rewrite (checkout_run d st request u c (Some 0%nat)).
  - intros k Hk. cbn zeta. split_and!.
    + rewrite (checkout_run d st request u c (Some (S k))) by done.
      cbn zeta. by rewrite decide_True.
    + cbn. rewrite lookup_insert_eq. eauto.
    + done.
    + done.
Qed.

Lemma checkout_all_or_nothing_without_later_fault_witness :
  run (checkout pendiente checkout_post) shop None =
    (Done (Redirect "cart:payment_process" (Some 2)),
     mkWorld (checked_out pendiente shop 7 1 checkout_post)
             [(SUCCESS, "¡Tu pedido ha sido creado correctamente!")] None) /\
  items (checked_out pendiente shop 7 1 checkout_post) 1 = [].
Proof.
  destruct (checkout_all_or_nothing_without_later_fault pendiente shop checkout_post 7 1)
    as [(Hrun & _ & _ & _ & Hitems & _) _].
  - reflexivity.
  - eexists. reflexivity.
  - discriminate.
  - reflexivity.
  - unfold complete, required_fields. repeat constructor.
  - split; [exact Hrun|exact Hitems].
Defined.

(** C1 as stated does not hold: when the write of the second order item
    fails, the checkout ends with the Order and one of its two items
    committed and the cart not emptied, which is neither the whole
    checkout nor nothing. *)
Lemma checkout_partial_state :
  let r := run (checkout pendiente checkout_post) shop (Some 2%nat) in
  r.1 = Raised OperationalError /\
  is_Some (orders (db r.2) !! 2) /\
  length (order_items (db r.2)) = S (length (order_items shop)) /\
  length (items (db r.2) 1) = 2%nat /\
  ~ all_or_nothing shop (db r.2) 1.
Proof.
  cbn zeta. split_and!.
  - by vm_compute.
  - vm_compute. eauto.
  - by vm_compute.
  - by vm_compute.
  - intros [(order & new_items & _ & _ & _ & _ & _ & Hitems)|Heq].
    + vm_compute in Hitems. discriminate.
    + apply (f_equal (fun s => length (order_items s))) in Heq.
      vm_compute in Heq. discriminate.
Qed.

(** ** Prices: live in a cart, copied into an order *)

Lemma find_price_after_edit pk v k (l : list Product.t) :
  from_option Product.price 0
    (List.find (fun p => Z.eqb (Product.id p) k)
       ((fun p => if Z.eqb (Product.id p) pk then with_price v p else p) <$> l))
  = if Z.eqb k pk
    then (if List.find (fun p => Z.eqb (Product.id p) pk) l is Some _ then v else 0)
    else from_option Product.price 0 (List.find (fun p => Z.eqb (Product.id p) k) l).
Proof.
  induction l as [|q l IH]; cbn.
  - by destruct (Z.eqb k pk).
  - destruct (Z.eqb (Product.id q) pk) eqn:Hq; cbn.
    + apply Z.eqb_eq in Hq. destruct (Z.eqb k pk) eqn:Hk.
      * apply Z.eqb_eq in Hk. subst. by rewrite Z.eqb_refl.
      * replace (Z.eqb (Product.id q) k) with false; [done|].
        symmetry. apply Z.eqb_neq. apply Z.eqb_neq in Hk. congruence.
    + destruct (Z.eqb (Product.id q) k) eqn:Hqk; [|done].
      apply Z.eqb_eq in Hqk. subst. by rewrite Hq.
Qed.

Lemma product_price_set_price st pk v k p :
  product_of st pk = Some p ->
  product_price (set_price pk v st) k
  = if Z.eqb k pk then v else product_price st k.
Proof.
  intros Hp. unfold product_price, product_of, set_price. cbn.
  rewrite find_price_after_edit. unfold product_of in Hp. by rewrite Hp.
Qed.

Lemma get_total_price_set_price st pk v c p :
  product_of st pk = Some p ->
  get_total_price (set_price pk v st) c
  = get_total_price st c + (v - Product.price p) * units st c pk.
Proof.
  intros Hp. unfold get_total_price, units, get_cost.
  change (items (set_price pk v st) c) with (items st c).
  induction (items st c) as [|[k it] l IH]; cbn [fmap list_fmap foldr snd].
  - cbn. lia.
  - rewrite IH, (product_price_set_price _ _ _ _ _ Hp).
    rewrite filter_cons. cbn [snd].
    destruct (decide (CartItem.product it = pk)) as [->|Hne].
    + rewrite Z.eqb_refl. cbn [fmap list_fmap foldr snd].
      unfold product_price at 2. rewrite Hp. cbn. lia.
    + replace (Z.eqb (CartItem.product it) pk) with false
        by (symmetry; by apply Z.eqb_neq).
      lia.
Qed.

(** C5: the total of a cart is the sum over its lines of quantity times
    the product's price in the store it is read from.  The order a
    checkout creates carries that total and, item by item, those prices;
    a later price edit leaves the order, its [total_paid] and its order
    items as they are, and moves the total of a cart that still holds the
    product by the price difference times the units held. *)
Theorem order_total_frozen_cart_total_live d st request u c pk v :
  user request = Some u -> cart_of st u c -> items st c <> [] ->
  method request = "POST" -> complete request ->
  let order := next_pk (orders st) in
  let st1 := db (run (checkout d request) st None).2 in
  let st2 := set_price pk v st1 in
  get_total_price st c
    = foldr Z.add 0 ((fun it => CartItem.quantity it.2
                                * product_price st (CartItem.product it.2))
                       <$> items st c) /\
  Order.total_paid <$> orders st1 !! order = Some (get_total_price st c) /\
  order_items st1
    = order_items st ++
      ((fun it => OrderItem.mk order (CartItem.product it)
                    (product_price st (CartItem.product it)) (CartItem.quantity it))
         <$> (items st c).*2) /\
  orders st2 = orders st1 /\
  order_items st2 = order_items st1 /\
  (forall s cart p,
     product_of s pk = Some p ->
     get_total_price (set_price pk v s) cart
     = get_total_price s cart + (v - Product.price p) * units s cart pk) /\
  (forall s cart p,
     product_of s pk = Some p -> v <> Product.price p -> units s cart pk <> 0 ->
     get_total_price (set_price pk v s) cart <> get_total_price s cart).
Proof.
  intros Hu Hc Hitems Hm Hall. cbn zeta.
  destruct (checkout_committed d st request u c
              Hu Hc Hitems Hm Hall) as (Hrun & Ho & Hoi).
  rewrite Hrun. cbn [snd db]. split_and!.
  - done.
  - rewrite Ho, lookup_insert_eq. done.
  - exact Hoi.
  - done.
  - done.
  - intros s cart p Hp. by apply get_total_price_set_price.
  - intros s cart p Hp Hv Hunits.
    rewrite (get_total_price_set_price _ _ _ _ _ Hp). nia.
Qed.

Lemma order_total_frozen_cart_total_live_witness :
  Order.total_paid
    <$> orders (db (run (checkout pendiente checkout_post) shop None).2) !! 2
  = Some 180000 /\
  orders (set_price 1 60000 (db (run (checkout pendiente checkout_post) shop None).2))
  = orders (db (run (checkout pendiente checkout_post) shop None).2) /\
  get_total_price (set_price 1 60000 shop) 1 <> get_total_price shop 1.
Proof.
  destruct (order_total_frozen_cart_total_live pendiente shop checkout_post 7 1 1 60000)
    as (_ & Hpaid & _ & Horders & _ & _ & Hlive).
  - reflexivity.
  - eexists. reflexivity.
  - discriminate.
  - reflexivity.
  - unfold complete, required_fields. repeat constructor.
  - split_and!.
    + exact Hpaid.
    + exact Horders.
    + apply (Hlive shop 1 mouse); [reflexivity|discriminate|discriminate].
Defined.

(** ** The chatbot *)

(** *** Digits and [int] *)

Lemma digit_not_space c : is_digit c -> is_space c = false.
Proof.
  unfold is_digit, digit_value, is_space. intros [d Hd].
  destruct (48 <=? nat_of_ascii c)%nat eqn:H1; [|done].
  destruct (nat_of_ascii c <=? 57)%nat eqn:H2; [|done].
  apply Nat.leb_le in H1, H2.
  repeat match goal with
         | |- context [(?a <=? ?b)%nat] =>
             destruct (Nat.leb_spec a b); try lia
         end; done.
Qed.

Lemma digit_not_sign c :
  is_digit c -> c <> "-"%char /\ c <> "+"%char /\ c <> "_"%char.
Proof.
  intros [d Hd]. split_and!; intros ->; vm_compute in Hd; discriminate.
Qed.

Lemma lstrip_digits l : Forall is_digit l -> lstrip l = l.
Proof.
  destruct 1 as [|c l Hc _]; [done|]. cbn. by rewrite digit_not_space.
Qed.

Lemma strip_digits l : Forall is_digit l -> strip l = l.
Proof.
  intros H. unfold strip. rewrite (lstrip_digits l H).
  rewrite lstrip_digits by (by apply Forall_rev). apply rev_involutive.
Qed.

Lemma digits_value_digits l : forall acc b,
  Forall is_digit l -> 0 <= acc -> (l <> [] \/ b = true) ->
  exists n, digits_value acc b l = Some n /\ 0 <= n.
Proof.
  induction l as [|c l IH]; intros acc b Hl Hacc Hne.
  - destruct Hne as [Hne| ->]; [done|]. cbn. eauto.
  - inversion Hl as [|? ? [d Hd] Hl']; subst. cbn. rewrite Hd.
    apply IH; [done| |by right].
    unfold digit_value in Hd.
    destruct ((48 <=? nat_of_ascii c) && (nat_of_ascii c <=? 57))%nat eqn:E; [|done].
    apply andb_true_iff in E as [E _]. apply Nat.leb_le in E.
    injection Hd as <-. lia.
Qed.

Lemma count_digits_digits l : Forall is_digit l -> count_digits l = length l.
Proof.
  unfold count_digits.
  induction 1 as [|c l [d Hd] _ IH]; [done|]. cbn. rewrite Hd. cbn. by rewrite IH.
Qed.

Lemma length_list_ascii_of_string s :
  length (list_ascii_of_string s) = String.length s.
Proof. induction s as [|c s IH]; cbn; [done|by rewrite IH]. Qed.

(** [int] on a run of digits: the number it spells when the run has no
    more than 4300 digits, [ValueError] when it has more. *)
Lemma py_int_digits s :
  digits s ->
  if (int_max_str_digits <? String.length s)%nat then py_int s = None
  else exists n, py_int s = Some n /\ 0 <= n.
Proof.
  intros [Hne Hd]. unfold py_int. rewrite (strip_digits _ Hd).
  destruct s as [|c s]; [done|].
  assert (Hgo : if (int_max_str_digits <? String.length (String c s))%nat
                then int_of_digits (list_ascii_of_string (String c s)) = None
                else exists n, int_of_digits (list_ascii_of_string (String c s)) = Some n
                               /\ 0 <= n).
  { unfold int_of_digits.
    rewrite (count_digits_digits _ Hd), length_list_ascii_of_string.
    destruct (int_max_str_digits <? String.length (String c s))%nat; [done|].
    apply digits_value_digits; [done|lia|by left]. }
  cbn [list_ascii_of_string] in *.
  inversion Hd as [|? ? Hc Hs]; subst.
  destruct (digit_not_sign c Hc) as (Hminus & Hplus & _).
  destruct c as [[|] [|] [|] [|] [|] [|] [|] [|]]; try done.
Qed.

(** *** The price pattern *)

Lemma digit_starts_character c :
  is_digit c -> ((128 <=? nat_of_ascii c) && (nat_of_ascii c <? 192))%nat = false.
Proof.
  unfold is_digit, digit_value. intros [d Hd].
  destruct (48 <=? nat_of_ascii c)%nat eqn:H1; [|done].
  destruct (nat_of_ascii c <=? 57)%nat eqn:H2; [|done].
  apply Nat.leb_le in H1, H2.
  apply andb_false_iff. left. apply Nat.leb_gt. lia.
Qed.

Lemma digits_prefix_digits s :
  Forall is_digit (list_ascii_of_string (digits_prefix s)) /\
  (String.length (digits_prefix s) <= py_len s)%nat.
Proof.
  induction s as [|c s [IH1 IH2]]; cbn [digits_prefix]; [by split; [constructor|]|].
  destruct (digit_value c) as [d|] eqn:Hd; cbn [list_ascii_of_string String.length].
  - assert (Hc : is_digit c) by (unfold is_digit; by rewrite Hd).
    split; [by constructor|].
    cbn [py_len]. rewrite (digit_starts_character c Hc). lia.
  - split; [constructor|lia].
Qed.

Lemma py_len_substring s : forall n m, (py_len (substring n m s) <= py_len s)%nat.
Proof.
  induction s as [|c s IH]; intros [|n] [|m]; cbn [substring py_len]; try lia.
  - specialize (IH 0%nat m). lia.
  - specialize (IH n 0%nat). lia.
  - specialize (IH n (S m)). lia.
Qed.

Lemma match_alternative_digits lit s group :
  match_alternative lit s = Some group ->
  digits group /\ (String.length group <= py_len s)%nat.
Proof.
  unfold match_alternative. destruct (String.prefix lit s); [|done].
  destruct (String.eqb _ "") eqn:E; [done|]. intros [= <-].
  destruct (digits_prefix_digits
              (substring (String.length lit) (String.length s) s)) as [Hd Hlen].
  split; [split; [|done]|].
  - intros Hempty. rewrite Hempty in E. done.
  - etrans; [exact Hlen|apply py_len_substring].
Qed.

(** A match has exactly one group that is not [None]; that group is a
    run of digits, and no longer than the text. *)
Lemma match_here_group alternatives s groups :
  match_here alternatives s = Some groups ->
  exists group, first_group groups = Some group /\ digits group /\
                (String.length group <= py_len s)%nat.
Proof.
  revert groups. induction alternatives as [|lit rest IH]; intros groups; [done|].
  cbn. destruct (match_alternative lit s) as [group|] eqn:Hm.
  - intros [= <-]. exists group. split; [done|].
    by apply match_alternative_digits in Hm.
  - destruct (match_here rest s) as [groups'|]; [|done]. intros [= <-].
    destruct (IH groups' eq_refl) as (group & Hfirst & Hd). by exists group.
Qed.

Lemma re_search_group alternatives s groups :
  re_search alternatives s = Some groups ->
  exists group, first_group groups = Some group /\ digits group /\
                (String.length group <= py_len s)%nat.
Proof.
  induction s as [|c s IH]; cbn [re_search];
    destruct (match_here alternatives _) as [groups'|] eqn:Hm;
    try done; try (intros [= <-]; by eapply match_here_group).
  intros Hs. destruct (IH Hs) as (group & Hfirst & Hd & Hlen).
  exists group. split_and!; [done..|]. cbn [py_len]. lia.
Qed.

(** The extracted ceiling: a thousand times the integer that the first
    group that is not [None] spells.  Extraction leaves the store alone;
    it raises [ValueError] when the group has more than 4300 digits. *)
Lemma extract_max_price_run query w :
  match re_search price_pattern query with
  | Some groups =>
      exists group,
        first_group groups = Some group /\ digits group /\
        (String.length group <= py_len query)%nat /\
        if (int_max_str_digits <? String.length group)%nat
        then extract_max_price query w = (Raised ValueError, w)
        else exists n,
               py_int group = Some n /\ 0 <= n /\
               extract_max_price query w = (Done (Some (n * 1000)), w)
  | None => extract_max_price query w = (Done None, w)
  end.
Proof.
  unfold extract_max_price.
  destruct (re_search price_pattern query) as [groups|] eqn:Hs; [|done].
  destruct (re_search_group _ _ _ Hs) as (group & Hfirst & Hd & Hlen).
  exists group. split_and!; [done..|].
  pose proof (py_int_digits group Hd) as Hint. rewrite Hfirst.
  destruct (int_max_str_digits <? String.length group)%nat.
  - rewrite Hint. by mrun.
  - destruct Hint as (n & Hn & Hpos). exists n. rewrite Hn. by mrun.
Qed.

Lemma extract_max_price_outcome query w :
  (exists max_price, extract_max_price query w = (Done max_price, w)) \/
  extract_max_price query w = (Raised ValueError, w).
Proof.
  pose proof (extract_max_price_run query w) as H.
  destruct (re_search price_pattern query) as [groups|]; [|eauto].
  destruct H as (group & _ & _ & _ & H).
  destruct (int_max_str_digits <? String.length group)%nat; [by right|].
  destruct H as (n & _ & _ & ->). eauto.
Qed.






(** Greetings in capitals and with accents are found after lowering. *)
Example chatbot_buenos_dias :
  lower "BUENOS DÍAS, MAÑANA" = "buenos días, mañana" /\
  (run (chatbot_query lower (chat_request "BUENOS DÍAS, MAÑANA")) shop None).1 =
  Done (JsonResponse [("success", VBool true);
                      ("response", VReply (Text greeting_response))]).
Proof. split; reflexivity. Qed.

(** C8: the query "gaming hasta 0" matches the price pattern, its first
    group that is not [None] is "0" and the extracted ceiling is 0 times
    1000; yet the products returned cost 50000 and 900000: a ceiling of 0
    is dropped by [if max_price:] instead of being applied. *)
Theorem chatbot_zero_ceiling_not_applied :
  re_search price_pattern "gaming hasta 0" = Some [None; None; None; Some "0"] /\
  (extract_max_price "gaming hasta 0" (mkWorld shop [] None)).1 = Done (Some (0 * 1000)) /\
  (run (chatbot_query lower (chat_request "gaming hasta 0")) shop None).1 =
    Done (JsonResponse [("success", VBool true);
                        ("response", VReply (ProductList None [mouse; silla] false))]) /\
  Product.price mouse = 50000 /\ Product.price silla = 900000.
Proof. by vm_compute. Qed.

(** *** What a product list holds *)

Lemma apply_keyword_run st query keyword category_name state w :
  (exists e, apply_keyword st query keyword category_name state w = (Raised e, w)) \/
  (exists state',
     apply_keyword st query keyword category_name state w = (Done state', w) /\
     state'.1 `sublist_of` state.1).
Proof.
  unfold apply_keyword.
  destruct (contains keyword query); [|by right; exists state].
  destruct category_name as [category_name|].
  - destruct (objects_get _) as [|category|].
    + by right; exists state.
    + right. eexists (_, true). split; [done|]. apply sublist_filter.
    + left. by eexists.
  - right. eexists (_, true). split; [done|]. apply sublist_filter.
Qed.

Lemma filter_by_keywords_run st query keywords : forall state w,
  (exists e, filter_by_keywords st query keywords state w = (Raised e, w)) \/
  (exists products_query applied,
     filter_by_keywords st query keywords state w = (Done (products_query, applied), w) /\
     products_query `sublist_of` state.1).
Proof.
  induction keywords as [|[keyword category_name] rest IH]; intros state w.
  - right. exists state.1, state.2. by destruct state.
  - cbn [filter_by_keywords]. unfold mbind, M_bind.
    destruct (apply_keyword_run st query keyword category_name state w)
      as [[e ->]|(state' & -> & Hsub)]; [left; by eexists|].
    destruct (IH state' w) as [[e He]|(pq & applied & Hrun & Hsub')].
    + left. exists e. exact He.
    + right. exists pq, applied. split; [exact Hrun|]. by etrans.
Qed.

Lemma filter_by_words_sublist query (l : list Product.t) :
  filter_by_words query l `sublist_of` l.
Proof.
  unfold filter_by_words.
  generalize (List.filter (fun word => (3 <=? py_len word)%nat) (split query)).
  intros words. revert l. induction words as [|word words IH]; intros l; [done|].
  cbn [foldl]. etrans; [apply IH|apply sublist_filter].
Qed.

Lemma respond_reply query response w r w' :
  respond query response w = (Done r, w') ->
  r = JsonResponse [("success", VBool true); ("response", VReply response)].
Proof.
  unfold respond, save_chat_query. mrun.
  destruct (faults w) as [[|n]|]; by intros [= <- <-].
Qed.

Lemma Forall_of_sublist {A} (P : A -> Prop) (l1 l2 : list A) :
  l1 `sublist_of` l2 -> Forall P l2 -> Forall P l1.
Proof.
  intros Hsub Hall. apply Forall_forall. intros x Hx.
  rewrite Forall_forall in Hall. apply Hall. by eapply sublist_subseteq.
Qed.

(** Whatever the query, the store and the failing write: a product list
    that the chatbot answers holds at most five products, all available,
    in the order of the catalogue; the ceiling it reports is the
    extracted one unless that is 0, and every product listed under a
    reported ceiling costs no more than it. *)
Lemma answer_product_list query st fl f r w :
  answer query (mkWorld st fl f) = (Done r, w) ->
  forall max_price listed hint,
  r = JsonResponse [("success", VBool true);
                    ("response", VReply (ProductList max_price listed hint))] ->
  listed `sublist_of` products st /\
  Forall (fun p => Product.is_available p = true) listed /\
  (length listed <= 5)%nat /\
  (exists extracted,
     (extract_max_price query (mkWorld st fl f)).1 = Done extracted /\
     max_price = truthy extracted) /\
  (forall m, max_price = Some m -> Forall (fun p => Product.price p <= m) listed).
Proof.
  unfold answer. unfold mbind at 1, M_bind at 1.
  destruct (extract_max_price_outcome query (mkWorld st fl f)) as [[mp Hx]|Hx];
    rewrite Hx; [|done].
  unfold mbind at 1, M_bind at 1, read at 1. cbn [db].
  destruct (existsb _ greetings).
  { intros Hr%respond_reply mp' listed hint ->. done. }
  destruct (existsb _ help_keywords).
  { intros Hr%respond_reply mp' listed hint ->. done. }
  unfold mbind at 1, M_bind at 1.
  destruct (filter_by_keywords_run st query category_keywords
              (filter (fun p => Product.is_available p = true) (products st), false)
              (mkWorld st fl f)) as [[e ->]|(pq & applied & -> & Hsub)]; [done|].
  cbn [fst] in Hsub.
  set (narrowed := if applied then pq else filter_by_words query pq).
  set (bounded := match truthy mp with
                  | Some m => filter (fun p => Product.price p <= m) narrowed
                  | None => narrowed
                  end).
  assert (Hnarrowed : narrowed `sublist_of` pq).
  { subst narrowed. destruct applied; [done|apply filter_by_words_sublist]. }
  assert (Hbounded : bounded `sublist_of` narrowed).
  { subst bounded. destruct (truthy mp); [apply sublist_filter|done]. }
  assert (Hprice : forall m, truthy mp = Some m ->
                             Forall (fun p => Product.price p <= m) bounded).
  { intros m Hm. subst bounded. destruct (truthy mp) as [m'|]; [|done].
    injection Hm as ->. apply Forall_forall.
    intros p Hp. by apply list_elem_of_filter in Hp as [Hp _]. }
  destruct (take 5 bounded) as [|p rest] eqn:Htake.
  { intros Hr%respond_reply mp' listed hint ->. done. }
  intros Hr%respond_reply mp' listed hint ->. injection Hr as -> -> ->.
  rewrite <- Htake.
  assert (Hall : take 5 bounded `sublist_of` products st).
  { etrans; [apply sublist_take|]. etrans; [exact Hbounded|].
    etrans; [exact Hnarrowed|]. etrans; [exact Hsub|]. apply sublist_filter. }
  split_and!.
  - exact Hall.
  - eapply Forall_of_sublist.
    + etrans; [apply sublist_take|]. etrans; [exact Hbounded|].
      etrans; [exact Hnarrowed|exact Hsub].
    + apply Forall_forall. intros x Hx'. by apply list_elem_of_filter in Hx' as [? _].
  - rewrite length_take. lia.
  - by exists mp.
  - intros m Hm. eapply Forall_of_sublist; [apply sublist_take|]. by apply Hprice.
Qed.

Lemma chatbot_product_list str_lower request st f max_price listed hint w :
  run (chatbot_query str_lower request) st f =
    (Done (JsonResponse [("success", VBool true);
                         ("response", VReply (ProductList max_price listed hint))]), w) ->
  listed `sublist_of` products st /\
  Forall (fun p => Product.is_available p = true) listed /\
  (length listed <= 5)%nat /\
  (forall m, max_price = Some m -> Forall (fun p => Product.price p <= m) listed).
Proof.
  unfold run, chatbot_query, try_except.
  destruct (String.eqb (method request) "POST"); [|by mrun].
  destruct (body request) as [data|]; [|by mrun].
  cbn [or_raise]. unfold mbind at 1, M_bind at 1. cbn [mret M_ret].
  unfold mbind at 1, M_bind at 1.
  assert (Hq : (exists e, query_of str_lower data (mkWorld st [] f)
                          = (Raised e, mkWorld st [] f)) \/
               (exists query, query_of str_lower data (mkWorld st [] f)
                              = (Done query, mkWorld st [] f))).
  { unfold query_of. destruct (dict_get "query" data) as [[| | |q]|]; mrun; eauto. }
  destruct Hq as [[e ->]|[query ->]]; [by mrun|].
  destruct (answer query (mkWorld st [] f)) as [[r|e] w'] eqn:Ha; [|by mrun].
  intros [= -> ->].
  destruct (answer_product_list _ _ _ _ _ _ Ha _ _ _ eq_refl)
    as (H1 & H2 & H3 & _ & H5).
  by split_and!.
Qed.

(** For a query that the price pattern matches, the products listed are
    bounded by the extracted ceiling whenever that ceiling is not 0. *)
Lemma answer_nonzero_ceiling query st fl f groups max_price listed hint w :
  re_search price_pattern query = Some groups ->
  answer query (mkWorld st fl f) =
    (Done (JsonResponse [("success", VBool true);
                         ("response", VReply (ProductList max_price listed hint))]), w) ->
  exists group n,
    first_group groups = Some group /\ py_int group = Some n /\
    (n <> 0 -> max_price = Some (n * 1000) /\
               Forall (fun p => Product.price p <= n * 1000) listed) /\
    (n = 0 -> max_price = None).
Proof.
  intros Hs Ha.
  destruct (answer_product_list _ _ _ _ _ _ Ha _ _ _ eq_refl)
    as (_ & _ & _ & (extracted & Hx & Hmp) & Hprice).
  pose proof (extract_max_price_run query (mkWorld st fl f)) as Hgroups.
  rewrite Hs in Hgroups. destruct Hgroups as (group & Hfirst & _ & _ & Hgroup).
  destruct (int_max_str_digits <? String.length group)%nat;
    [by rewrite Hgroup in Hx|].
  destruct Hgroup as (n & Hn & _ & Hrun).
  rewrite Hrun in Hx. injection Hx as <-.
  exists group, n. split_and!; try done.
  - intros Hne. assert (Hm : max_price = Some (n * 1000)).
    { rewrite Hmp. cbn. destruct (n * 1000) eqn:E; try done. lia. }
    split; [done|]. by apply Hprice.
  - intros ->. by rewrite Hmp.
Qed.

(** The query of the spec's example: the name filter for "gaming", the
    category filter for "teclado" and the ceiling of 50 thousand leave the
    mouse. *)
Example chatbot_teclado_gaming :
  (run (chatbot_query lower (chat_request "teclado gaming menos de 50")) shop None).1 =
  Done (JsonResponse [("success", VBool true);
                      ("response", VReply (ProductList (Some 50000) [mouse] false))]).
Proof. reflexivity. Qed.

(** A query that matches no product is answered with the apology that
    echoes it and suggests the active categories. *)
Example chatbot_no_match :
  (run (chatbot_query lower (chat_request "Impresora laser")) shop None).1 =
  Done (JsonResponse [("success", VBool true);
                      ("response",
                       VReply (Apology "impresora laser"
                                 [Category.mk 1 "Periféricos" "perifericos" true]))]).
Proof. reflexivity. Qed.
